(** * Skipera: the item-processing orchestrator of [main.py]

    A shallow embedding of [Skipera.get_course], its helpers and [main].
    Network calls and the collaborators that live outside [main.py]
    ([Watcher], [GradedSolver], the HTTP session, [config]) are taken as an
    environment of oracles; the program itself is written in a small
    trace-and-exception monad, so that every log line and every collaborator
    call is an observable event, in the order the program produces it. *)

From Stdlib Require Import List String Ascii Bool Arith ZArith Lia.
From Stdlib Require Import Permutation DecimalString.
Import ListNotations.
Local Open Scope string_scope.
Local Open Scope list_scope.

(** ** Data model *)

(** One element of [r["linked"]["onDemandCourseMaterialItems.v2"]]: the
    program reads [item["id"]], [item["name"]] and
    [item["contentSummary"]["typeName"]] and nothing else. *)
Record Item : Type := mkItem {
  item_id : string;
  item_name : string;
  typeName : string
}.

(** The dict returned by [get_video_metadata]. *)
Record Metadata : Type := mkMetadata {
  can_skip : bool;
  tracking_id : string
}.

(** Exceptions. All of them are subclasses of Python's [Exception]. *)
Inductive exn : Type :=
| NotImplementedError
| IndexError (msg : string)
| ValueError (msg : string)
| RuntimeError (msg : string).

(** [str(e)], as the f-strings of the log calls render it. *)
Definition str_exn (e : exn) : string :=
  match e with
  | NotImplementedError => EmptyString
  | IndexError msg => msg
  | ValueError msg => msg
  | RuntimeError msg => msg
  end.

Inductive Level : Type := DEBUG | INFO | WARNING | ERROR.

(** What the program does to the outside world, in order. *)
Inductive Event : Type :=
| Log (lvl : Level) (msg : string)
| LogCaught (e : exn)                               (* the record written by [@logger.catch] *)
| GetUserPermissions                                (* GET adminUserPermissions.v1 *)
| GetCourseMaterials (slug : string)                (* GET onDemandCourseMaterials.v2 *)
| GetLectureVideo (course_id iid : string)          (* GET onDemandLectureVideos.v1 *)
| WatchItem (item : Item) (md : Metadata)           (* Watcher(...).watch_item() *)
| PostSupplementCompletion (course_id iid : string) (uid : Z)
| Solve (course_id iid : string).                   (* GradedSolver(...).solve() *)

Definition Trace : Type := list Event.

Inductive result (A : Type) : Type :=
| Ok (a : A)
| Raise (e : exn).
Arguments Ok {A} a.
Arguments Raise {A} e.

(** ** The monad: a trace of events, then a value or an exception *)

Definition M (A : Type) : Type := (Trace * result A)%type.

Definition ret {A} (a : A) : M A := ([], Ok a).

Definition bind {A B} (m : M A) (k : A -> M B) : M B :=
  match m with
  | (t, Ok a) => let (t', r) := k a in (t ++ t', r)
  | (t, Raise e) => (t, Raise e)
  end.

Definition raise {A} (e : exn) : M A := ([], Raise e).

Definition emit (ev : Event) : M unit := ([ev], Ok tt).

(** [try: m except Exception as e: h e] *)
Definition try_except {A} (m : M A) (h : exn -> M A) : M A :=
  match m with
  | (t, Ok a) => (t, Ok a)
  | (t, Raise e) => let (t', r) := h e in (t ++ t', r)
  end.

(** An oracle's answer becomes a computation that performs the call. *)
Definition call {A} (ev : Event) (r : result A) : M A := ([ev], r).

Notation "x <- m ;; k" := (bind m (fun x => k))
  (at level 61, m at next level, right associativity).
Notation "m ;;; k" := (bind m (fun _ => k))
  (at level 61, right associativity).

Definition log (lvl : Level) (msg : string) : M unit := emit (Log lvl msg).

(** [for x in xs: body x] *)
Fixpoint for_each {A} (xs : list A) (body : A -> M unit) : M unit :=
  match xs with
  | [] => ret tt
  | x :: xs' => body x ;;; for_each xs' body
  end.

(** [for x in xs: acc = body acc x] *)
Fixpoint for_fold {A S} (xs : list A) (body : S -> A -> M S) (acc : S) : M S :=
  match xs with
  | [] => ret acc
  | x :: xs' => acc' <- body acc x ;; for_fold xs' body acc'
  end.

(** [str(n)] for a length. *)
Definition str_nat (n : nat) : string := NilZero.string_of_uint (Nat.to_uint n).

(** [needle in hay] on strings. *)
Fixpoint contains (needle hay : string) : bool :=
  String.prefix needle hay ||
  match hay with
  | EmptyString => false
  | String _ hay' => contains needle hay'
  end.

(** ** The environment: everything [main.py] calls but does not define *)

(** The JSON answer of [adminUserPermissions.v1?q=my], as far as
    [get_userid] looks at it. [elements] is [None] when the answer has no
    "elements" key, and otherwise the list under that key, each element
    reduced to its "id" ([None] when the element has no such key).
    [errorCode] is [r.get("errorCode")]. *)
Record UserResponse : Type := mkUserResponse {
  elements : option (list (option string));
  errorCode : option string
}.

(** [r["elements"][0]["id"]], when all of it is there. *)
Definition elements_id (r : UserResponse) : option string :=
  match elements r with
  | Some (Some uid :: _) => Some uid
  | _ => None
  end.

(** The JSON answer of [onDemandCourseMaterials.v2], as far as [get_course]
    looks at it. *)
Record CourseResponse : Type := mkCourseResponse {
  elements_course_id : string;
  linked_modules : nat;            (* len(r["linked"]["...Modules.v1"]) *)
  linked_items : list Item
}.

(** The JSON answer of [onDemandLectureVideos.v1]. *)
Record VideoResponse : Type := mkVideoResponse {
  disableSkippingForward : bool;
  linked_video_id : string
}.

Record Env : Type := mkEnv {
  http_user : result UserResponse;
  http_course : string -> result CourseResponse;
  http_video : string -> string -> result VideoResponse;
  http_supplement : string -> string -> Z -> result string;   (* [r.text] *)
  watcher : Item -> Metadata -> string -> string -> string -> result unit;
  solver : string -> string -> result unit;
  py_int : string -> option Z                                 (* [int(s)] *)
}.

(** ** The program *)

(** The fields of a [Skipera] object that the run reads. *)
Record Skipera : Type := mkSkipera {
  course : string;
  llm : bool;
  eva : bool;
  parallel : bool;
  user_id : string
}.

Record Buckets : Type := mkBuckets {
  videos : list Item;
  readings : list Item;
  assessments : list Item
}.

Definition no_buckets : Buckets := mkBuckets [] [] [].

(** The body of the loop of lines 72-87, for one item. *)
Definition classify_item (self_llm self_eva : bool) (b : Buckets) (item : Item) : M Buckets :=
  if typeName item =? "lecture" then
    if negb self_eva then
      ret (mkBuckets (videos b ++ [item]) (readings b) (assessments b))
    else
      log DEBUG ("Skipping video '" ++ item_name item ++ "' (eva mode - only assessments)") ;;;
      ret b
  else if typeName item =? "supplement" then
    if negb self_eva then
      ret (mkBuckets (videos b) (readings b ++ [item]) (assessments b))
    else
      log DEBUG ("Skipping reading '" ++ item_name item ++ "' (eva mode - only assessments)") ;;;
      ret b
  else if existsb (String.eqb (typeName item)) ["ungradedAssignment"; "staffGraded"] then
    if self_llm || self_eva then
      ret (mkBuckets (videos b) (readings b) (assessments b ++ [item]))
    else if typeName item =? "ungradedAssignment" then
      log INFO "Skipping ungraded assignment!" ;;; ret b
    else ret b
  else ret b.

(** Lines 68-87: the three lists and the loop that fills them. *)
Definition classify (self_llm self_eva : bool) (items : list Item) : M Buckets :=
  for_fold items (classify_item self_llm self_eva) no_buckets.

(** The handler of [get_userid]: [except KeyError]. *)
Definition on_KeyError (r : UserResponse) : M (option string) :=
  match errorCode r with
  | Some code =>
      if code =? EmptyString then ret None
      else log ERROR ("Error Encountered: " ++ code) ;;; ret None
  | None => ret None
  end.

(** [get_userid]: [Some uid] stands for [True] with [self.user_id] set,
    [None] for [False]. Only [KeyError] is handled there: a missing
    "elements" key and a first element without "id" go to the handler, an
    empty list of elements raises [IndexError], which leaves the function. *)
Definition get_userid (env : Env) : M (option string) :=
  r <- call GetUserPermissions (http_user env) ;;
  match elements r with
  | None => on_KeyError r
  | Some [] => raise (IndexError "list index out of range")
  | Some (None :: _) => on_KeyError r
  | Some (Some uid :: _) => log INFO ("User ID: " ++ uid) ;;; ret (Some uid)
  end.

Definition login : M string := raise NotImplementedError.

(** [Skipera.__init__] *)
Definition Skipera_init (env : Env) (slug : string) (llm0 eva0 parallel0 : bool) : M Skipera :=
  found <- get_userid env ;;
  uid <- match found with
         | Some uid => ret uid
         | None => login
         end ;;
  ret (mkSkipera slug llm0 eva0 parallel0 uid).

Definition get_video_metadata (env : Env) (course_id iid : string) : M Metadata :=
  r <- call (GetLectureVideo course_id iid) (http_video env course_id iid) ;;
  ret (mkMetadata (negb (disableSkippingForward r)) (linked_video_id r)).

Definition watch_item (env : Env) (self : Skipera) (course_id : string)
    (item : Item) (metadata : Metadata) : M unit :=
  call (WatchItem item metadata)
       (watcher env item metadata (user_id self) (course self) course_id).

Definition read_item (env : Env) (self : Skipera) (course_id iid : string) : M unit :=
  uid <- match py_int env (user_id self) with
         | Some z => ret z
         | None => raise (ValueError ("invalid literal for int() with base 10: '"
                                     ++ user_id self ++ "'"))
         end ;;
  text <- call (PostSupplementCompletion course_id iid uid)
               (http_supplement env course_id iid uid) ;;
  if negb (contains "Completed" text) then log DEBUG "Couldn't read item!"
  else ret tt.

(** [_process_video], the task a pool worker runs. *)
Definition _process_video (env : Env) (self : Skipera) (course_id : string) (item : Item) : M unit :=
  log INFO ("Starting: " ++ item_name item) ;;;
  try_except
    (metadata <- get_video_metadata env course_id (item_id item) ;;
     watch_item env self course_id item metadata ;;;
     log INFO ("Completed: " ++ item_name item))
    (fun e => log ERROR ("Failed to process " ++ item_name item ++ ": " ++ str_exn e)).

(** *** The worker pool

    The tasks are queued in submission order and at most [max_workers]
    threads run them: a thread takes the task at the head of the queue, runs
    it to its end and takes the next one. So the tasks that can move are
    among the first [max_workers] unfinished ones, in submission order (a
    task in that window is running, or can be taken by a free thread
    together with the queued tasks before it). Which of them moves is the
    choice of the thread scheduler, and that choice is a parameter: a
    schedule is a list of numbers, and the number at the head selects one of
    the tasks in the window. Once the schedule is used up the tasks are run
    one after the other in submission order, as leaving the [with] block
    waits for all of them. *)
Definition Schedule : Type := list nat.

(** [max_workers=30], line 92. *)
Definition max_workers : nat := 30.

(** Take the next event of the [k]-th unfinished worker among the first
    [room] unfinished ones (of the last one of them when [k] is too big). *)
Fixpoint pick (room k : nat) (ws : list Trace) : option (Event * list Trace) :=
  match ws with
  | [] => None
  | [] :: ws' =>
      match pick room k ws' with
      | Some (ev, ws'') => Some (ev, [] :: ws'')
      | None => None
      end
  | (ev :: w) :: ws' =>
      match room with
      | O => None
      | S room' =>
          match k with
          | O => Some (ev, w :: ws')
          | S k' =>
              match pick room' k' ws' with
              | Some (ev', ws'') => Some (ev', (ev :: w) :: ws'')
              | None => Some (ev, w :: ws')
              end
          end
      end
  end.

Fixpoint interleave (fuel room : nat) (sched : Schedule) (ws : list Trace) : Trace :=
  match fuel with
  | O => []
  | S fuel' =>
      match pick room (hd O sched) ws with
      | Some (ev, ws') => ev :: interleave fuel' room (tl sched) ws'
      | None => []
      end
  end.

(** [future.result()] inside the [try] of lines 99-102; its log line, if any,
    follows the worker's own events. *)
Definition future_result (worker : M unit) : M unit :=
  try_except worker (fun e => log ERROR ("Error processing video: " ++ str_exn e)).

(** Lines 92-102: a pool of [workers] threads; submit every task, then wait
    for all of them. *)
Definition thread_pool (workers : nat) (sched : Schedule) (tasks : list (M unit)) : M unit :=
  let ws := map (fun task => fst (future_result task)) tasks in
  (interleave (List.length (List.concat ws)) workers sched ws, Ok tt).

(** Lines 89-107. *)
Definition process_videos (env : Env) (self : Skipera) (course_id : string)
    (sched : Schedule) (vs : list Item) : M unit :=
  match vs with
  | [] => ret tt
  | _ :: _ =>
      if parallel self then
        log INFO ("Processing " ++ str_nat (List.length vs) ++ " videos in parallel (max 30 at a time)...") ;;;
        thread_pool max_workers sched (map (_process_video env self course_id) vs)
      else
        for_each vs (fun item =>
          log INFO (item_name item) ;;;
          metadata <- get_video_metadata env course_id (item_id item) ;;
          watch_item env self course_id item metadata)
  end.

(** Lines 109-111. *)
Definition process_readings (env : Env) (self : Skipera) (course_id : string)
    (rs : list Item) : M unit :=
  for_each rs (fun item => read_item env self course_id (item_id item)).

(** The body of the loop of lines 114-122. *)
Definition solve_item (env : Env) (course_id : string) (item : Item) : M unit :=
  if typeName item =? "ungradedAssignment" then
    log INFO "Attempting to solve ungraded assessment.." ;;;
    call (Solve course_id (item_id item)) (solver env course_id (item_id item))
  else if typeName item =? "staffGraded" then
    log INFO "Attempting to solve graded assessment.." ;;;
    call (Solve course_id (item_id item)) (solver env course_id (item_id item))
  else ret tt.

Definition process_assessments (env : Env) (course_id : string) (xs : list Item) : M unit :=
  for_each xs (solve_item env course_id).

(** Lines 89-122: the three phases, on the buckets of the classification. *)
Definition process_buckets (env : Env) (self : Skipera) (course_id : string)
    (sched : Schedule) (b : Buckets) : M unit :=
  process_videos env self course_id sched (videos b) ;;;
  process_readings env self course_id (readings b) ;;;
  process_assessments env course_id (assessments b).

Definition get_course (env : Env) (self : Skipera) (sched : Schedule) : M unit :=
  r <- call (GetCourseMaterials (course self)) (http_course env (course self)) ;;
  let course_id := elements_course_id r in
  log INFO ("Course ID: " ++ course_id) ;;;
  log INFO ("Number of Modules: " ++ str_nat (linked_modules r)) ;;;
  log DEBUG "Processing items.." ;;;
  b <- classify (llm self) (eva self) (linked_items r) ;;
  process_buckets env self course_id sched b.

(** [@logger.catch]: an exception that reaches the top is logged and the
    call returns. *)
Definition logger_catch (m : M unit) : M unit :=
  try_except m (fun e => emit (LogCaught e)).

(** The flag adjustments of lines 164-170. *)
Definition adjust_flags (llm0 eva0 parallel0 : bool) : M (bool * bool) :=
  llm1 <- (if eva0 && llm0 then
             log WARNING "Both --llm and --eva flags provided. Using --eva mode (assessments only)." ;;;
             ret false
           else ret llm0) ;;
  parallel1 <- (if parallel0 && eva0 then
                  log WARNING "--parallel flag ignored in --eva mode (no videos to process)." ;;;
                  ret false
                else ret parallel0) ;;
  ret (llm1, parallel1).

(** Lines 172-173: build the object, run the course. *)
Definition start (env : Env) (sched : Schedule) (slug : string) (llm0 eva0 parallel0 : bool) : M unit :=
  skipera <- Skipera_init env slug llm0 eva0 parallel0 ;;
  get_course env skipera sched.

(** The body of [main] under [@logger.catch]: the events of a call of
    [main()], and what becomes of an exception of the run. How the call
    itself ends once the body has returned (the exit of the click layer) is
    told by [main_call] below. *)
Definition main (env : Env) (sched : Schedule) (slug : string) (llm0 eva0 parallel0 : bool) : M unit :=
  logger_catch
    (flags <- adjust_flags llm0 eva0 parallel0 ;;
     start env sched slug (fst flags) eva0 (snd flags)).

(** ** Vocabulary of the properties *)

(** The type tags the classification knows. *)
Definition is_video (self_eva : bool) (item : Item) : bool :=
  (typeName item =? "lecture") && negb self_eva.

Definition is_reading (self_eva : bool) (item : Item) : bool :=
  (typeName item =? "supplement") && negb self_eva.

Definition is_assessment (self_llm self_eva : bool) (item : Item) : bool :=
  ((typeName item =? "ungradedAssignment") || (typeName item =? "staffGraded"))
  && (self_llm || self_eva).

Definition known_tag (tag : string) : bool :=
  (tag =? "lecture") || (tag =? "supplement") ||
  (tag =? "ungradedAssignment") || (tag =? "staffGraded").

(** The log lines the classification writes for one item. *)
Definition classify_notes (self_llm self_eva : bool) (item : Item) : Trace :=
  fst (classify_item self_llm self_eva no_buckets item).

Definition is_ungraded_note (ev : Event) : bool :=
  match ev with
  | Log INFO msg => msg =? "Skipping ungraded assignment!"
  | _ => false
  end.

(** Log lines and collaborator calls of a trace. *)
Definition is_log (ev : Event) : bool :=
  match ev with
  | Log _ _ | LogCaught _ => true
  | _ => false
  end.

Definition logs (t : Trace) : Trace := filter is_log t.
Definition calls (t : Trace) : Trace := filter (fun ev => negb (is_log ev)) t.

(** The "Completed: <name>" lines of [_process_video]. *)
Definition is_completed (ev : Event) : bool :=
  match ev with
  | Log INFO msg => String.prefix "Completed: " msg
  | _ => false
  end.

Definition completed_entries (t : Trace) : Trace := filter is_completed t.

(** What one video costs when nothing fails: one metadata fetch, then one
    watch call with that metadata. *)
Definition video_calls (env : Env) (course_id : string) (item : Item) : Trace :=
  match http_video env course_id (item_id item) with
  | Ok r => [GetLectureVideo course_id (item_id item);
             WatchItem item (mkMetadata (negb (disableSkippingForward r)) (linked_video_id r))]
  | Raise _ => [GetLectureVideo course_id (item_id item)]
  end.

(** Neither collaborator call of [item] raises. *)
Definition video_succeeds (env : Env) (self : Skipera) (course_id : string) (item : Item) : Prop :=
  exists r,
    http_video env course_id (item_id item) = Ok r /\
    watcher env item (mkMetadata (negb (disableSkippingForward r)) (linked_video_id r))
            (user_id self) (course self) course_id = Ok tt.

(** ** A small course, and three platforms serving it *)

Module Sample.

Definition intro : Item := mkItem "v1" "Intro" "lecture".
Definition basics : Item := mkItem "v2" "Basics" "lecture".
Definition notes : Item := mkItem "r1" "Notes" "supplement".
Definition quiz : Item := mkItem "q1" "Quiz" "ungradedAssignment".
Definition exam : Item := mkItem "g1" "Exam" "staffGraded".
Definition forum : Item := mkItem "x1" "Forum" "discussionPrompt".

Definition materials : CourseResponse :=
  mkCourseResponse "C" 1 [intro; basics; notes; quiz; exam; forum].

Definition int42 (s : string) : option Z := if s =? "42" then Some 42%Z else None.

(** Every call succeeds. *)
Definition healthy : Env :=
  mkEnv (Ok (mkUserResponse (Some [Some "42"]) None))
        (fun _ => Ok materials)
        (fun _ _ => Ok (mkVideoResponse false "t"))
        (fun _ _ _ => Ok "status: Completed")
        (fun _ _ _ _ _ => Ok tt)
        (fun _ _ => Ok tt)
        int42.

(** The metadata fetch of the first video fails. *)
Definition video_fails : Env :=
  mkEnv (http_user healthy) (http_course healthy)
        (fun _ iid => if iid =? "v1" then Raise (RuntimeError "metadata fetch failed")
                      else Ok (mkVideoResponse false "t"))
        (http_supplement healthy) (watcher healthy) (solver healthy) int42.

(** The solver fails on the quiz. *)
Definition solver_fails : Env :=
  mkEnv (http_user healthy) (http_course healthy) (http_video healthy)
        (http_supplement healthy) (watcher healthy)
        (fun _ iid => if iid =? "q1" then Raise (RuntimeError "solver failed") else Ok tt)
        int42.

(** The completion POST answers without the marker. *)
Definition unread : Env :=
  mkEnv (http_user healthy) (http_course healthy) (http_video healthy)
        (fun _ _ _ => Ok "errorCode: not found")
        (watcher healthy) (solver healthy) int42.

Definition learner (llm0 eva0 parallel0 : bool) : Skipera :=
  mkSkipera "slug" llm0 eva0 parallel0 "42".

End Sample.

(** ** Vocabulary of the further properties *)


Definition is_plain_log (ev : Event) : bool :=
  match ev with
  | Log _ _ => true
  | _ => false
  end.

(** The events each phase can produce. *)
Definition video_event (ev : Event) : bool :=
  match ev with
  | Log _ _ | GetLectureVideo _ _ | WatchItem _ _ => true
  | _ => false
  end.

Definition reading_event (ev : Event) : bool :=
  match ev with
  | Log _ _ | PostSupplementCompletion _ _ _ => true
  | _ => false
  end.

Definition assessment_event (ev : Event) : bool :=
  match ev with
  | Log _ _ | Solve _ _ => true
  | _ => false
  end.

Definition is_solve (ev : Event) : bool :=
  match ev with
  | Solve _ _ => true
  | _ => false
  end.

Definition is_video_or_reading_call (ev : Event) : bool :=
  match ev with
  | GetLectureVideo _ _ | WatchItem _ _ | PostSupplementCompletion _ _ _ => true
  | _ => false
  end.

(** The debug line of the classification for an item that [eva] skips. *)
Definition eva_note (item : Item) : Trace :=
  if typeName item =? "lecture" then
    [Log DEBUG ("Skipping video '" ++ item_name item ++ "' (eva mode - only assessments)")]
  else if typeName item =? "supplement" then
    [Log DEBUG ("Skipping reading '" ++ item_name item ++ "' (eva mode - only assessments)")]
  else [].

Definition is_watch (ev : Event) : bool :=
  match ev with
  | WatchItem _ _ => true
  | _ => false
  end.

Definition is_fetch (ev : Event) : bool :=
  match ev with
  | GetLectureVideo _ _ => true
  | _ => false
  end.

(** The line with which [_process_video] ends a task, either way. *)
Definition is_outcome (ev : Event) : bool :=
  match ev with
  | Log INFO msg => String.prefix "Completed: " msg
  | Log ERROR msg => String.prefix "Failed to process " msg
  | _ => false
  end.

(** The line of the handler around [future.result()]. *)
Definition is_pool_error (ev : Event) : bool :=
  match ev with
  | Log ERROR msg => String.prefix "Error processing video: " msg
  | _ => false
  end.

Definition is_unread_note (ev : Event) : bool :=
  match ev with
  | Log DEBUG msg => msg =? "Couldn't read item!"
  | _ => false
  end.

(** The completion POST of [item] answers, without the marker. *)
Definition unmarked (env : Env) (course_id : string) (uid : Z) (item : Item) : bool :=
  match http_supplement env course_id (item_id item) uid with
  | Ok text => negb (contains "Completed" text)
  | Raise _ => false
  end.

(** The two type tags the assessment loop acts on. *)
Definition gradable (item : Item) : bool :=
  (typeName item =? "ungradedAssignment") || (typeName item =? "staffGraded").

Definition attempt_note (item : Item) : Event :=
  if typeName item =? "ungradedAssignment"
  then Log INFO "Attempting to solve ungraded assessment.."
  else Log INFO "Attempting to solve graded assessment..".

(** What [get_userid] logs when the answer has no user id. *)
Definition error_note (r : UserResponse) : Trace :=
  match errorCode r with
  | Some code =>
      if code =? EmptyString then []
      else [Log ERROR ("Error Encountered: " ++ code)]
  | None => []
  end.

(** One of the two collaborator calls of [item] raises [e]. *)
Definition video_fails_with (env : Env) (self : Skipera) (course_id : string)
    (item : Item) (e : exn) : Prop :=
  http_video env course_id (item_id item) = Raise e \/
  exists r,
    http_video env course_id (item_id item) = Ok r /\
    watcher env item (mkMetadata (negb (disableSkippingForward r)) (linked_video_id r))
            (user_id self) (course self) course_id = Raise e.

(** A watch call is made for a video of the list, with the metadata that
    was fetched for that video. *)
Definition watches_fetched (env : Env) (course_id : string) (vs : list Item)
    (ev : Event) : Prop :=
  match ev with
  | WatchItem item md =>
      In item vs /\
      exists r,
        http_video env course_id (item_id item) = Ok r /\
        md = mkMetadata (negb (disableSkippingForward r)) (linked_video_id r)
  | _ => True
  end.

(** *** Tasks in flight *)

(** The first line of a task of the pool. *)
Definition is_start (ev : Event) : bool :=
  match ev with
  | Log INFO msg => String.prefix "Starting: " msg
  | _ => false
  end.

(** What is left of a task that has started and has not ended: no first
    line any more, and the closing line at the end and nowhere else. *)
Fixpoint running (w : Trace) : bool :=
  match w with
  | [] => false
  | ev :: w' =>
      negb (is_start ev) &&
      match w' with
      | [] => is_outcome ev
      | _ :: _ => negb (is_outcome ev) && running w'
      end
  end.

(** A task that has not started: its first line, then a running task. *)
Definition fresh (w : Trace) : bool :=
  match w with
  | [] => false
  | ev :: w' => is_start ev && negb (is_outcome ev) && running w'
  end.

(** A task of the pool at any moment: done, not started, or running. *)
Definition task_state (w : Trace) : Prop :=
  w = [] \/ fresh w = true \/ running w = true.

(** The number of tasks that have started and have not ended. *)
Definition in_flight (ws : list Trace) : nat := List.length (filter running ws).

(** Every running task is among the first [room] unfinished ones. *)
Fixpoint within (room : nat) (ws : list Trace) : Prop :=
  match ws with
  | [] => True
  | [] :: ws' => within room ws'
  | (ev :: w) :: ws' =>
      match room with
      | O => running (ev :: w) = false /\ within O ws'
      | S room' => within room' ws'
      end
  end.

Definition starts (t : Trace) : nat := List.length (filter is_start t).
Definition closings (t : Trace) : nat := List.length (filter is_outcome t).


(** *** Calls, video by video *)

Definition Item_eqb (x y : Item) : bool :=
  (item_id x =? item_id y) && (item_name x =? item_name y) && (typeName x =? typeName y).

Definition is_fetch_of (course_id iid : string) (ev : Event) : bool :=
  match ev with
  | GetLectureVideo c i => (c =? course_id) && (i =? iid)
  | _ => false
  end.

Definition is_watch_of (x : Item) (ev : Event) : bool :=
  match ev with
  | WatchItem y _ => Item_eqb x y
  | _ => false
  end.


(** *** How a call of [main()] ends *)



(** * Properties *)

(** ** The monad *)

Lemma bind_ok {A B} (t : Trace) (a : A) (k : A -> M B) :
  bind (t, Ok a) k = (t ++ fst (k a), snd (k a)).
Proof. simpl. destruct (k a); reflexivity. Qed.

Lemma bind_raise {A B} (t : Trace) (e : exn) (k : A -> M B) :
  bind (t, Raise e) k = (t, Raise e).
Proof. reflexivity. Qed.

Lemma bind_ext {A B} (m : M A) (k k' : A -> M B) :
  (forall a, k a = k' a) -> bind m k = bind m k'.
Proof.
  intros Hk. destruct m as [t [a | e]]; simpl; [rewrite Hk|]; reflexivity.
Qed.

Lemma surjective_run {A} (m : M A) : m = (fst m, snd m).
Proof. destruct m; reflexivity. Qed.

Lemma for_each_app {A} (xs ys : list A) (body : A -> M unit) :
  snd (for_each xs body) = Ok tt ->
  for_each (xs ++ ys) body
  = (fst (for_each xs body) ++ fst (for_each ys body), snd (for_each ys body)).
Proof.
  induction xs as [| x xs IH]; simpl; intros Hok.
  - destruct (for_each ys body); reflexivity.
  - destruct (body x) as [t [[] | e]]; simpl in *.
    + destruct (for_each xs body) as [t1 r1] eqn:E1. simpl in Hok. subst r1.
      rewrite (IH eq_refl). simpl. rewrite app_assoc. reflexivity.
    + discriminate.
Qed.

(** A loop stops at the first iteration that raises. *)
Lemma for_each_raise {A} (x : A) (xs : list A) (body : A -> M unit) (e : exn) :
  snd (body x) = Raise e -> for_each (x :: xs) body = (fst (body x), Raise e).
Proof.
  simpl. destruct (body x) as [t r]; simpl; intros ->. reflexivity.
Qed.

Lemma for_each_all_ok {A} (xs : list A) (body : A -> M unit) :
  Forall (fun x => snd (body x) = Ok tt) xs ->
  for_each xs body = (flat_map (fun x => fst (body x)) xs, Ok tt).
Proof.
  induction 1 as [| x xs Hx _ IH]; simpl; [reflexivity|].
  destruct (body x) as [t r]; simpl in *; subst r. rewrite IH. reflexivity.
Qed.

(** ** Classification *)

Lemma Item_eq_dec (x y : Item) : {x = y} + {x <> y}.
Proof. decide equality; apply string_dec. Defined.

Ltac tag_cases item :=
  destruct (String.eqb_spec (typeName item) "lecture") as [Htag | Hlec];
  [ rewrite ?Htag
  | destruct (String.eqb_spec (typeName item) "supplement") as [Htag | Hsup];
    [ rewrite ?Htag
    | destruct (String.eqb_spec (typeName item) "ungradedAssignment") as [Htag | Hung];
      [ rewrite ?Htag
      | destruct (String.eqb_spec (typeName item) "staffGraded") as [Htag | Hstaff];
        [ rewrite ?Htag | ] ] ] ].

(** One turn of the loop: the notes it logs and the buckets it leaves. *)
Lemma classify_item_run (l e : bool) (b : Buckets) (item : Item) :
  classify_item l e b item
  = (classify_notes l e item,
     Ok (mkBuckets (videos b ++ filter (is_video e) [item])
                   (readings b ++ filter (is_reading e) [item])
                   (assessments b ++ filter (is_assessment l e) [item]))).
Proof.
  unfold classify_notes, classify_item, is_video, is_reading, is_assessment.
  destruct b as [vs rs xs]. simpl.
  tag_cases item; destruct l, e; simpl; rewrite ?app_nil_r; reflexivity.
Qed.

Lemma for_fold_classify (l e : bool) (items : list Item) (b : Buckets) :
  for_fold items (classify_item l e) b
  = (flat_map (classify_notes l e) items,
     Ok (mkBuckets (videos b ++ filter (is_video e) items)
                   (readings b ++ filter (is_reading e) items)
                   (assessments b ++ filter (is_assessment l e) items))).
Proof.
  revert b. induction items as [| item items IH]; intros b.
  - simpl. rewrite !app_nil_r. destruct b; reflexivity.
  - cbn [for_fold flat_map]. rewrite classify_item_run, bind_ok, IH.
    cbn [fst snd videos readings assessments]. rewrite <- !app_assoc.
    change (item :: items) with ([item] ++ items). rewrite !filter_app.
    reflexivity.
Qed.

(** The classification is total; its buckets are three filters of the input,
    in input order. *)
Lemma classify_run (l e : bool) (items : list Item) :
  classify l e items
  = (flat_map (classify_notes l e) items,
     Ok (mkBuckets (filter (is_video e) items)
                   (filter (is_reading e) items)
                   (filter (is_assessment l e) items))).
Proof. unfold classify. rewrite for_fold_classify. reflexivity. Qed.

Lemma bucket_tests_exclusive (l e : bool) (item : Item) :
  (is_video e item && is_reading e item = false) /\
  (is_video e item && is_assessment l e item = false) /\
  (is_reading e item && is_assessment l e item = false).
Proof.
  unfold is_video, is_reading, is_assessment.
  tag_cases item; destruct l, e; simpl; repeat split; reflexivity.
Qed.

Lemma unknown_tag_unclassified (l e : bool) (item : Item) :
  known_tag (typeName item) = false ->
  is_video e item = false /\ is_reading e item = false /\ is_assessment l e item = false.
Proof.
  unfold known_tag, is_video, is_reading, is_assessment.
  tag_cases item; simpl; intros H; try discriminate; repeat split; reflexivity.
Qed.

Lemma count_occ_filters (f g h : Item -> bool) (items : list Item) (x : Item) :
  (forall y, f y && g y = false) ->
  (forall y, f y && h y = false) ->
  (forall y, g y && h y = false) ->
  count_occ Item_eq_dec (filter f items) x
  + count_occ Item_eq_dec (filter g items) x
  + count_occ Item_eq_dec (filter h items) x
  <= count_occ Item_eq_dec items x.
Proof.
  intros Hfg Hfh Hgh. induction items as [| y items IH]; simpl; [lia|].
  specialize (Hfg y). specialize (Hfh y). specialize (Hgh y).
  destruct (f y), (g y), (h y); simpl in *; try discriminate;
    destruct (Item_eq_dec y x); lia.
Qed.

Lemma filter_none {A} (f : A -> bool) (xs : list A) :
  (forall x, f x = false) -> filter f xs = [].
Proof.
  intros Hf. induction xs as [| x xs IH]; simpl; [|rewrite Hf]; auto.
Qed.

Lemma ungraded_notes_count (items : list Item) :
  List.length (filter is_ungraded_note (flat_map (classify_notes false false) items))
  = List.length (filter (fun item => typeName item =? "ungradedAssignment") items).
Proof.
  induction items as [| item items IH]; simpl; [reflexivity|].
  rewrite filter_app, length_app, IH.
  unfold classify_notes, classify_item. simpl.
  tag_cases item; reflexivity.
Qed.

(** C5: with [eva] set, whatever the input items (and whatever [llm]), the
    classification ends normally and leaves both the videos bucket and the
    readings bucket empty. *)
Theorem C5_eva_empties_videos_and_readings (l : bool) (items : list Item) :
  exists notes b,
    classify l true items = (notes, Ok b) /\ videos b = [] /\ readings b = [].
Proof.
  rewrite classify_run. do 2 eexists. split; [reflexivity|]. simpl.
  split; apply filter_none; intros item.
  - unfold is_video. apply andb_false_r.
  - unfold is_reading. apply andb_false_r.
Qed.

(** C6: an item of the input whose type tag is [ungradedAssignment] is in the
    assessments bucket exactly when [llm] or [eva] is set. When neither is
    set it is in no bucket and the note "Skipping ungraded assignment!" is
    logged, once per such item. *)
Theorem C6_ungraded_iff_llm_or_eva (l e : bool) (items : list Item) (item : Item) :
  In item items ->
  typeName item = "ungradedAssignment" ->
  exists notes b,
    classify l e items = (notes, Ok b) /\
    (In item (assessments b) <-> l || e = true) /\
    (l || e = false ->
       ~ In item (videos b) /\ ~ In item (readings b) /\ ~ In item (assessments b) /\
       In (Log INFO "Skipping ungraded assignment!") notes /\
       List.length (filter is_ungraded_note notes)
       = List.length (filter (fun x => typeName x =? "ungradedAssignment") items)).
Proof.
  intros Hin Htag. rewrite classify_run. do 2 eexists. split; [reflexivity|].
  cbn [videos readings assessments].
  assert (Hass : is_assessment l e item = l || e).
  { unfold is_assessment. rewrite Htag. reflexivity. }
  split.
  - rewrite filter_In, Hass. tauto.
  - intros Hoff. rewrite !filter_In, Hass, Hoff.
    unfold is_video, is_reading. rewrite Htag. simpl.
    repeat split; try (intros [_ H]; discriminate H).
    + apply in_flat_map. exists item. split; [exact Hin|].
      apply orb_false_elim in Hoff as [-> ->].
      unfold classify_notes, classify_item. rewrite Htag. simpl. auto.
    + apply orb_false_elim in Hoff as [-> ->]. apply ungraded_notes_count.
Qed.

Lemma C6_witness :
  exists notes b,
    classify false false (linked_items Sample.materials) = (notes, Ok b) /\
    (In Sample.quiz (assessments b) <-> false || false = true) /\
    (false || false = false ->
       ~ In Sample.quiz (videos b) /\ ~ In Sample.quiz (readings b) /\
       ~ In Sample.quiz (assessments b) /\
       In (Log INFO "Skipping ungraded assignment!") notes /\
       List.length (filter is_ungraded_note notes)
       = List.length (filter (fun x => typeName x =? "ungradedAssignment")
                             (linked_items Sample.materials))).
Proof.
  apply (C6_ungraded_iff_llm_or_eva false false (linked_items Sample.materials) Sample.quiz).
  - simpl. auto.
  - reflexivity.
Defined.

(** C8: for every input and every mode the classification ends normally;
    each occurrence of an item of the input lands in at most one of the three
    buckets, no item is in two buckets, and an item whose type tag is none of
    [lecture], [supplement], [ungradedAssignment], [staffGraded] is in no
    bucket. *)
Theorem C8_at_most_one_bucket (l e : bool) (items : list Item) :
  exists notes b,
    classify l e items = (notes, Ok b) /\
    (forall item,
        count_occ Item_eq_dec (videos b) item
        + count_occ Item_eq_dec (readings b) item
        + count_occ Item_eq_dec (assessments b) item
        <= count_occ Item_eq_dec items item) /\
    (forall item,
        ~ (In item (videos b) /\ In item (readings b)) /\
        ~ (In item (videos b) /\ In item (assessments b)) /\
        ~ (In item (readings b) /\ In item (assessments b))) /\
    (forall item,
        known_tag (typeName item) = false ->
        ~ In item (videos b) /\ ~ In item (readings b) /\ ~ In item (assessments b)).
Proof.
  rewrite classify_run. do 2 eexists. split; [reflexivity|].
  cbn [videos readings assessments]. split; [|split].
  - intros item.
    apply count_occ_filters; intros y; apply (bucket_tests_exclusive l e y).
  - intros item. rewrite !filter_In.
    destruct (bucket_tests_exclusive l e item) as [Hvr [Hva Hra]].
    repeat split; intros [[_ H1] [_ H2]]; rewrite H1, H2 in *; discriminate.
  - intros item Hunknown. rewrite !filter_In.
    destruct (unknown_tag_unclassified l e item Hunknown) as [Hv [Hr Ha]].
    repeat split; intros [_ H1]; congruence.
Qed.

(** ** Readings *)

(** C4: when the completion POST of a reading item answers with a body that
    does not contain "Completed", [read_item] logs "Couldn't read item!" and
    returns normally, and the loop over the readings goes on with the next
    item. *)
Theorem C4_unmarked_reading_is_soft_failure
    (env : Env) (self : Skipera) (course_id : string)
    (item : Item) (rest : list Item) (uid : Z) (text : string) :
  py_int env (user_id self) = Some uid ->
  http_supplement env course_id (item_id item) uid = Ok text ->
  contains "Completed" text = false ->
  read_item env self course_id (item_id item)
  = ([PostSupplementCompletion course_id (item_id item) uid;
      Log DEBUG "Couldn't read item!"], Ok tt)
  /\ process_readings env self course_id (item :: rest)
     = ([PostSupplementCompletion course_id (item_id item) uid;
         Log DEBUG "Couldn't read item!"]
        ++ fst (process_readings env self course_id rest),
        snd (process_readings env self course_id rest)).
Proof.
  intros Hint Hpost Hmark.
  assert (Hread : read_item env self course_id (item_id item)
                  = ([PostSupplementCompletion course_id (item_id item) uid;
                      Log DEBUG "Couldn't read item!"], Ok tt)).
  { unfold read_item, call. rewrite Hint. simpl. rewrite Hpost. simpl.
    rewrite Hmark. reflexivity. }
  split; [exact Hread|].
  unfold process_readings. cbn [for_each]. rewrite Hread, bind_ok. reflexivity.
Qed.

Lemma C4_witness :
  read_item Sample.unread (Sample.learner false false false) "C" (item_id Sample.notes)
  = ([PostSupplementCompletion "C" (item_id Sample.notes) 42;
      Log DEBUG "Couldn't read item!"], Ok tt)
  /\ process_readings Sample.unread (Sample.learner false false false) "C"
       (Sample.notes :: [Sample.notes])
     = ([PostSupplementCompletion "C" (item_id Sample.notes) 42;
         Log DEBUG "Couldn't read item!"]
        ++ fst (process_readings Sample.unread (Sample.learner false false false) "C"
                  [Sample.notes]),
        snd (process_readings Sample.unread (Sample.learner false false false) "C"
               [Sample.notes])).
Proof.
  apply (C4_unmarked_reading_is_soft_failure Sample.unread
           (Sample.learner false false false) "C" Sample.notes [Sample.notes]
           42%Z "errorCode: not found"); reflexivity.
Defined.

(** ** The worker pool *)

(** A step of the scheduler takes the first pending event of one worker and
    leaves every other worker as it was. *)
Lemma pick_head (room k : nat) (ws : list Trace) (ev : Event) (ws' : list Trace) :
  pick room k ws = Some (ev, ws') ->
  exists before w after,
    ws = before ++ (ev :: w) :: after /\ ws' = before ++ w :: after.
Proof.
  revert room k ev ws'. induction ws as [| w0 ws IH]; intros room k ev ws'; simpl.
  - discriminate.
  - destruct w0 as [| e w0].
    + destruct (pick room k ws) as [[ev1 ws1] |] eqn:Hp; [|discriminate].
      intros [= <- <-]. destruct (IH _ _ _ _ Hp) as (b & w & a & -> & ->).
      exists ([] :: b), w, a. split; reflexivity.
    + destruct room as [| room]; [discriminate|].
      destruct k as [| k].
      * intros [= <- <-]. exists [], w0, ws. split; reflexivity.
      * destruct (pick room k ws) as [[ev1 ws1] |] eqn:Hp.
        -- intros [= <- <-]. destruct (IH _ _ _ _ Hp) as (b & w & a & -> & ->).
           exists ((e :: w0) :: b), w, a. split; reflexivity.
        -- intros [= <- <-]. exists [], w0, ws. split; reflexivity.
Qed.

(** Conversely every worker with a pending event and fewer than [room]
    unfinished workers before it can be the one that moves: the schedules
    reach every merge that the pool allows. *)
Lemma pick_any (room : nat) (before : list Trace) (ev : Event) (w : Trace) (after : list Trace) :
  List.length (filter (fun t => negb (Nat.eqb (List.length t) 0)) before) < room ->
  exists k,
    pick room k (before ++ (ev :: w) :: after) = Some (ev, before ++ w :: after).
Proof.
  revert room. induction before as [| w0 before IH]; intros room Hroom; simpl in *.
  - destruct room as [| room]; [lia|]. exists 0. reflexivity.
  - destruct w0 as [| e w0]; simpl in *.
    + destruct (IH room Hroom) as [k Hk]. exists k. rewrite Hk. reflexivity.
    + destruct room as [| room]; [lia|].
      destruct (IH room ltac:(lia)) as [k Hk]. exists (S k). rewrite Hk. reflexivity.
Qed.

(** With at least one thread the scheduler only stops when no worker has
    anything left to do. *)
Lemma pick_none (room k : nat) (ws : list Trace) :
  pick (S room) k ws = None -> List.concat ws = [].
Proof.
  revert k. induction ws as [| w0 ws IH]; intros k; simpl; [reflexivity|].
  destruct w0 as [| e w0].
  - destruct (pick (S room) k ws) as [[ev1 ws1] |] eqn:Hp; [discriminate|].
    intros _. exact (IH _ Hp).
  - destruct k as [| k]; [discriminate|].
    destruct (pick room k ws) as [[ev1 ws1] |]; discriminate.
Qed.

(** Whatever the schedule, the merged trace holds every event of every
    worker exactly once: no task is lost and none runs twice. *)
Lemma interleave_perm (fuel room : nat) (sched : Schedule) (ws : list Trace) :
  List.length (List.concat ws) <= fuel ->
  Permutation (interleave fuel (S room) sched ws) (List.concat ws).
Proof.
  revert sched ws. induction fuel as [| fuel IH]; intros sched ws Hlen;
    cbn [interleave].
  - destruct (List.concat ws); [constructor | simpl in Hlen; lia].
  - destruct (pick (S room) (hd 0 sched) ws) as [[ev ws'] |] eqn:Hp.
    + destruct (pick_head _ _ _ _ _ Hp) as (b & w & a & -> & ->).
      rewrite concat_app in *. simpl in *. rewrite length_app in Hlen.
      simpl in Hlen. rewrite length_app in Hlen.
      etransitivity; [| apply Permutation_middle].
      constructor. etransitivity; [apply IH|].
      * rewrite concat_app. simpl. rewrite !length_app. lia.
      * rewrite concat_app. reflexivity.
    + rewrite (pick_none _ _ _ Hp). constructor.
Qed.

(** [_process_video] never raises: whatever the collaborators do, the
    failure is logged inside the task. *)
Lemma _process_video_never_raises (env : Env) (self : Skipera) (course_id : string) (item : Item) :
  snd (_process_video env self course_id item) = Ok tt.
Proof.
  unfold _process_video, log, emit. rewrite bind_ok.
  match goal with |- snd (_, snd ?m) = _ => destruct m as [t [[] | e]] eqn:E end;
    [reflexivity|].
  exfalso. revert E. unfold try_except.
  match goal with |- (match ?m with _ => _ end) = _ -> _ => destruct m as [t' [a | e']] end;
    simpl; discriminate.
Qed.

Lemma thread_pool_run (workers : nat) (sched : Schedule) (tasks : list (M unit)) :
  snd (thread_pool (S workers) sched tasks) = Ok tt /\
  Permutation (fst (thread_pool (S workers) sched tasks))
              (List.concat (map (fun task => fst (future_result task)) tasks)).
Proof.
  unfold thread_pool. cbn [fst snd]. split; [reflexivity|].
  apply interleave_perm. lia.
Qed.

(** ** Videos: the two paths side by side *)

Lemma Permutation_filter {A} (f : A -> bool) (xs ys : list A) :
  Permutation xs ys -> Permutation (filter f xs) (filter f ys).
Proof.
  induction 1 as [| x xs ys _ IH | x y xs | xs ys zs _ IH1 _ IH2]; simpl.
  - constructor.
  - destruct (f x); [constructor|]; exact IH.
  - destruct (f x), (f y); try reflexivity. constructor.
  - etransitivity; eassumption.
Qed.

Lemma filter_flat_map {A B} (f : B -> bool) (g : A -> list B) (xs : list A) :
  filter f (flat_map g xs) = flat_map (fun x => filter f (g x)) xs.
Proof.
  induction xs as [| x xs IH]; simpl; [reflexivity|].
  rewrite filter_app, IH. reflexivity.
Qed.

Lemma prefix_nil (s : string) : String.prefix EmptyString s = true.
Proof. destruct s; reflexivity. Qed.

Lemma flat_map_singleton {A B} (g : A -> B) (xs : list A) :
  flat_map (fun x => [g x]) xs = map g xs.
Proof. induction xs as [| x xs IH]; simpl; [|rewrite IH]; reflexivity. Qed.

Lemma video_calls_are_calls (env : Env) (course_id : string) (item : Item) :
  calls (video_calls env course_id item) = video_calls env course_id item /\
  logs (video_calls env course_id item) = [] /\
  completed_entries (video_calls env course_id item) = [].
Proof.
  unfold video_calls. destruct (http_video env course_id (item_id item));
    repeat split; reflexivity.
Qed.

(** A task of the pool whose collaborators both answer. *)
Lemma _process_video_ok (env : Env) (self : Skipera) (course_id : string) (item : Item) :
  video_succeeds env self course_id item ->
  _process_video env self course_id item
  = (Log INFO ("Starting: " ++ item_name item)
       :: video_calls env course_id item
       ++ [Log INFO ("Completed: " ++ item_name item)], Ok tt).
Proof.
  intros (r & Hmeta & Hwatch).
  unfold _process_video, get_video_metadata, watch_item, video_calls, call.
  rewrite Hmeta. simpl. rewrite Hwatch. reflexivity.
Qed.

(** One turn of the sequential loop whose collaborators both answer. *)
Lemma sequential_video_ok (env : Env) (self : Skipera) (course_id : string) (item : Item) :
  video_succeeds env self course_id item ->
  (log INFO (item_name item) ;;;
   metadata <- get_video_metadata env course_id (item_id item) ;;
   watch_item env self course_id item metadata)
  = (Log INFO (item_name item) :: video_calls env course_id item, Ok tt).
Proof.
  intros (r & Hmeta & Hwatch).
  unfold get_video_metadata, watch_item, video_calls, call.
  rewrite Hmeta. simpl. rewrite Hwatch. reflexivity.
Qed.

Lemma future_result_ok (task : M unit) :
  snd task = Ok tt -> future_result task = task.
Proof. destruct task as [t r]; simpl; intros ->. reflexivity. Qed.

(** The events the pool has to merge, when every video succeeds. *)
Lemma pool_events_ok (env : Env) (self : Skipera) (course_id : string) (vs : list Item) :
  List.concat (map (fun task => fst (future_result task))
                   (map (_process_video env self course_id) vs))
  = flat_map (fun item => fst (_process_video env self course_id item)) vs.
Proof.
  rewrite map_map, flat_map_concat_map. f_equal. apply map_ext. intros item.
  rewrite future_result_ok by apply _process_video_never_raises. reflexivity.
Qed.

Lemma parallel_videos_run (env : Env) (self : Skipera) (course_id : string)
    (sched : Schedule) (v : Item) (vs : list Item) :
  parallel self = true ->
  snd (process_videos env self course_id sched (v :: vs)) = Ok tt /\
  exists merged,
    fst (process_videos env self course_id sched (v :: vs))
    = Log INFO ("Processing " ++ str_nat (List.length (v :: vs))
                ++ " videos in parallel (max 30 at a time)...") :: merged /\
    Permutation merged
      (flat_map (fun item => fst (_process_video env self course_id item)) (v :: vs)).
Proof.
  intros Hpar. unfold process_videos. rewrite Hpar.
  destruct (thread_pool_run 29 sched (map (_process_video env self course_id) (v :: vs)))
    as [Hok Hperm].
  change (S 29) with max_workers in Hok, Hperm.
  rewrite pool_events_ok in Hperm.
  rewrite (surjective_run (thread_pool _ _ _)), Hok.
  unfold log, emit. rewrite bind_ok. cbn [fst snd app]. split; [reflexivity|].
  eexists. split; [reflexivity | exact Hperm].
Qed.

Lemma sequential_videos_run (env : Env) (self : Skipera) (course_id : string)
    (sched : Schedule) (vs : list Item) :
  parallel self = false ->
  Forall (video_succeeds env self course_id) vs ->
  process_videos env self course_id sched vs
  = (flat_map (fun item => Log INFO (item_name item) :: video_calls env course_id item) vs,
     Ok tt).
Proof.
  intros Hseq Hok. unfold process_videos. rewrite Hseq.
  destruct vs as [| v vs]; [reflexivity|].
  rewrite for_each_all_ok.
  - f_equal. apply flat_map_ext. intros item.
    destruct (http_video env course_id (item_id item)) eqn:E;
      unfold get_video_metadata, watch_item, video_calls, call; rewrite E;
      reflexivity.
  - eapply Forall_impl; [| exact Hok]. intros item Hitem.
    rewrite (sequential_video_ok _ _ _ _ Hitem). reflexivity.
Qed.


(** C1 does not hold of the sequential path. On the sample course, with the
    metadata fetch of the first video failing, the sequential run stops at
    that fetch: the exception leaves [get_course], the second video is never
    fetched and the reading is never posted. The parallel path, on the same
    input, logs the failure inside the task and goes on. In [main] the
    exception of the sequential run is logged by [@logger.catch], after which
    nothing else happens. *)
Theorem C1_sequential_video_failure_aborts :
  get_course Sample.video_fails (Sample.learner false false false) []
  = ([GetCourseMaterials "slug";
      Log INFO "Course ID: C";
      Log INFO "Number of Modules: 1";
      Log DEBUG "Processing items..";
      Log INFO "Skipping ungraded assignment!";
      Log INFO "Intro";
      GetLectureVideo "C" "v1"],
     Raise (RuntimeError "metadata fetch failed"))
  /\
  get_course Sample.video_fails (Sample.learner false false true) []
  = ([GetCourseMaterials "slug";
      Log INFO "Course ID: C";
      Log INFO "Number of Modules: 1";
      Log DEBUG "Processing items..";
      Log INFO "Skipping ungraded assignment!";
      Log INFO "Processing 2 videos in parallel (max 30 at a time)...";
      Log INFO "Starting: Intro";
      GetLectureVideo "C" "v1";
      Log ERROR "Failed to process Intro: metadata fetch failed";
      Log INFO "Starting: Basics";
      GetLectureVideo "C" "v2";
      WatchItem Sample.basics (mkMetadata true "t");
      Log INFO "Completed: Basics";
      PostSupplementCompletion "C" "r1" 42],
     Ok tt)
  /\
  main Sample.video_fails [] "slug" false false false
  = ([GetUserPermissions;
      Log INFO "User ID: 42";
      GetCourseMaterials "slug";
      Log INFO "Course ID: C";
      Log INFO "Number of Modules: 1";
      Log DEBUG "Processing items..";
      Log INFO "Skipping ungraded assignment!";
      Log INFO "Intro";
      GetLectureVideo "C" "v1";
      LogCaught (RuntimeError "metadata fetch failed")],
     Ok tt).
Proof. repeat split; reflexivity. Qed.

(** ** Assessments *)


(** ** The flags of [main] *)

Lemma bind_ext_on {A B} (m : M A) (k k' : A -> M B) :
  (forall t a, m = (t, Ok a) -> k a = k' a) -> bind m k = bind m k'.
Proof.
  intros Hk. destruct m as [t [a | e]]; simpl; [|reflexivity].
  rewrite (Hk t a eq_refl). reflexivity.
Qed.

(** The object is built with the flags it is given. *)
Lemma Skipera_init_flags (env : Env) (slug : string) (l e p : bool) (t : Trace) (s : Skipera) :
  Skipera_init env slug l e p = (t, Ok s) ->
  course s = slug /\ llm s = l /\ eva s = e /\ parallel s = p.
Proof.
  unfold Skipera_init.
  destruct (get_userid env) as [t1 [[uid |] | e1]]; simpl; try discriminate.
  intros [= _ <-]. repeat split.
Qed.

(** The sequential path never consults the scheduler. *)
Lemma sequential_ignores_schedule (env : Env) (self : Skipera) (sched sched' : Schedule) :
  parallel self = false ->
  get_course env self sched = get_course env self sched'.
Proof.
  intros Hseq. unfold get_course. apply bind_ext. intros r.
  repeat (apply bind_ext; intros ?).
  unfold process_buckets, process_videos. rewrite Hseq. reflexivity.
Qed.

Lemma classify_ignores_llm_under_eva (l : bool) (items : list Item) :
  classify l true items = classify false true items.
Proof.
  rewrite !classify_run. f_equal.
  - apply flat_map_ext. intros item. unfold classify_notes, classify_item.
    tag_cases item; destruct l; reflexivity.
  - f_equal. f_equal. apply filter_ext. intros item. unfold is_assessment.
    destruct l; simpl; rewrite !andb_true_r; reflexivity.
Qed.

(** C7: asking for [llm] and [eva] together is asking for [eva] alone. The
    classification gives the same notes and the same buckets, and [main]
    does what it does for [eva] alone after one more line, the warning that
    [eva] is used; what the run calls and how it ends are the same. *)
Theorem C7_llm_with_eva_is_eva
    (env : Env) (sched : Schedule) (slug : string) (p : bool) (items : list Item) :
  classify true true items = classify false true items /\
  main env sched slug true true p
  = (Log WARNING "Both --llm and --eva flags provided. Using --eva mode (assessments only)."
       :: fst (main env sched slug false true p),
     snd (main env sched slug false true p)) /\
  calls (fst (main env sched slug true true p))
  = calls (fst (main env sched slug false true p)).
Proof.
  split; [apply classify_ignores_llm_under_eva|].
  assert (Hmain :
            main env sched slug true true p
            = (Log WARNING "Both --llm and --eva flags provided. Using --eva mode (assessments only)."
                 :: fst (main env sched slug false true p),
               snd (main env sched slug false true p))).
  { unfold main, adjust_flags, log, emit. destruct p; simpl;
      destruct (start env sched slug false true false) as [t [[] | e]]; reflexivity. }
  split; [exact Hmain|]. rewrite Hmain. reflexivity.
Qed.

(** C10: with [--eva] and [--parallel] together, [main] logs the warning that
    the parallel flag is ignored and builds the object with [parallel] off
    (and [llm] off, [eva] on) before anything else happens; from there on it
    is the run without [--parallel], so the outcome does not depend on the
    scheduler. *)
Theorem C10_eva_turns_parallel_off
    (env : Env) (sched sched' : Schedule) (slug : string) (l : bool) :
  adjust_flags l true true
  = (fst (adjust_flags l true false)
       ++ [Log WARNING "--parallel flag ignored in --eva mode (no videos to process)."],
     Ok (false, false)) /\
  snd (adjust_flags l true false) = Ok (false, false) /\
  main env sched slug l true true
  = logger_catch ((fst (adjust_flags l true true), Ok tt) ;;;
                  start env sched slug false true false) /\
  main env sched slug l true false
  = logger_catch ((fst (adjust_flags l true false), Ok tt) ;;;
                  start env sched slug false true false) /\
  main env sched slug l true true = main env sched' slug l true true.
Proof.
  assert (Hflags : forall p, adjust_flags l true p
                             = (fst (adjust_flags l true p), Ok (false, false))).
  { intros p. destruct l, p; reflexivity. }
  assert (Hmain : forall s p, main env s slug l true p
                              = logger_catch ((fst (adjust_flags l true p), Ok tt) ;;;
                                              start env s slug false true false)).
  { intros s p. unfold main. rewrite (Hflags p), !bind_ok. reflexivity. }
  split; [destruct l; reflexivity|].
  split; [destruct l; reflexivity|].
  split; [apply Hmain|]. split; [apply Hmain|].
  rewrite !Hmain. f_equal. apply bind_ext. intros _.
  unfold start. apply bind_ext_on. intros t s Hinit.
  apply sequential_ignores_schedule.
  apply (Skipera_init_flags _ _ _ _ _ _ _ Hinit).
Qed.

(** ** Phase order *)

(** In parallel mode every event of every video task is in the trace before
    the first event of the readings: the pool is left only when all the
    submitted tasks are done, whatever happened inside them. *)
Lemma parallel_videos_finish_before_readings
    (env : Env) (self : Skipera) (course_id : string) (sched : Schedule)
    (v : Item) (vs rs xs : list Item) :
  parallel self = true ->
  exists merged,
    Permutation merged
      (flat_map (fun item => fst (_process_video env self course_id item)) (v :: vs)) /\
    process_buckets env self course_id sched (mkBuckets (v :: vs) rs xs)
    = (Log INFO ("Processing " ++ str_nat (List.length (v :: vs))
                 ++ " videos in parallel (max 30 at a time)...")
         :: merged
         ++ fst (process_readings env self course_id rs ;;;
                 process_assessments env course_id xs),
       snd (process_readings env self course_id rs ;;;
            process_assessments env course_id xs)).
Proof.
  intros Hpar.
  destruct (parallel_videos_run env self course_id sched v vs Hpar)
    as (Hok & merged & Htrace & Hperm).
  exists merged. split; [exact Hperm|].
  unfold process_buckets. cbn [videos readings assessments].
  rewrite (surjective_run (process_videos _ _ _ _ _)), Hok, Htrace, bind_ok.
  reflexivity.
Qed.

(** * Further properties *)

(** ** What a trace can hold *)

Lemma Forall_bind {A B} (P : Event -> Prop) (m : M A) (k : A -> M B) :
  Forall P (fst m) -> (forall a, Forall P (fst (k a))) -> Forall P (fst (bind m k)).
Proof.
  intros Hm Hk. destruct m as [t [a | e]]; simpl in *; [|exact Hm].
  specialize (Hk a). destruct (k a) as [t' r]. simpl in *.
  apply Forall_app. split; assumption.
Qed.

Lemma Forall_try_except {A} (P : Event -> Prop) (m : M A) (h : exn -> M A) :
  Forall P (fst m) -> (forall e, Forall P (fst (h e))) -> Forall P (fst (try_except m h)).
Proof.
  intros Hm Hh. destruct m as [t [a | e]]; simpl in *; [exact Hm|].
  specialize (Hh e). destruct (h e) as [t' r]. simpl in *.
  apply Forall_app. split; assumption.
Qed.

Lemma Forall_for_each {A} (P : Event -> Prop) (xs : list A) (body : A -> M unit) :
  (forall x, In x xs -> Forall P (fst (body x))) -> Forall P (fst (for_each xs body)).
Proof.
  induction xs as [| x xs IH]; intros Hbody; simpl; [constructor|].
  apply Forall_bind.
  - apply Hbody. left. reflexivity.
  - intros _. apply IH. intros y Hy. apply Hbody. right. exact Hy.
Qed.

Lemma Forall_thread_pool (P : Event -> Prop) (workers : nat) (sched : Schedule)
    (tasks : list (M unit)) :
  (forall task, In task tasks -> Forall P (fst (future_result task))) ->
  Forall P (fst (thread_pool (S workers) sched tasks)).
Proof.
  intros Htasks. destruct (thread_pool_run workers sched tasks) as [_ Hperm].
  eapply Permutation_Forall; [symmetry; exact Hperm|].
  apply Forall_concat. apply Forall_map. apply Forall_forall. exact Htasks.
Qed.

Lemma classify_notes_are_logs (l e : bool) (item : Item) :
  Forall (fun ev => is_plain_log ev = true) (classify_notes l e item).
Proof.
  unfold classify_notes, classify_item. simpl.
  tag_cases item; destruct l, e; simpl; repeat constructor.
Qed.

(** The run of [get_course], once the course materials are there: the three
    header lines, the notes of the classification, then the three phases on
    the filtered buckets. *)
Lemma get_course_run (env : Env) (self : Skipera) (sched : Schedule) (r : CourseResponse) :
  http_course env (course self) = Ok r ->
  get_course env self sched
  = (GetCourseMaterials (course self)
       :: Log INFO ("Course ID: " ++ elements_course_id r)
       :: Log INFO ("Number of Modules: " ++ str_nat (linked_modules r))
       :: Log DEBUG "Processing items.."
       :: flat_map (classify_notes (llm self) (eva self)) (linked_items r)
       ++ fst (process_buckets env self (elements_course_id r) sched
                 (mkBuckets (filter (is_video (eva self)) (linked_items r))
                            (filter (is_reading (eva self)) (linked_items r))
                            (filter (is_assessment (llm self) (eva self)) (linked_items r)))),
     snd (process_buckets env self (elements_course_id r) sched
            (mkBuckets (filter (is_video (eva self)) (linked_items r))
                       (filter (is_reading (eva self)) (linked_items r))
                       (filter (is_assessment (llm self) (eva self)) (linked_items r))))).
Proof.
  intros Hcourse. unfold get_course, call, log, emit. rewrite Hcourse.
  cbn [bind app]. rewrite classify_run. cbn [bind app].
  destruct (process_buckets _ _ _ _ _) as [t res]. reflexivity.
Qed.

(** ** The flags *)

Lemma adjust_flags_run (l e p : bool) :
  adjust_flags l e p = (fst (adjust_flags l e p), Ok (l && negb e, p && negb e)).
Proof. destruct l, e, p; reflexivity. Qed.

(** After the adjustments of [main], [eva] is never in force together with
    [llm] or with [parallel]: the flags the object is built with are
    [llm and not eva] and [parallel and not eva], and one warning is logged
    for each flag that was dropped. *)
Theorem adjust_flags_exclusive (l e p : bool) :
  exists l' p',
    snd (adjust_flags l e p) = Ok (l', p') /\
    l' = l && negb e /\ p' = p && negb e /\
    l' && e = false /\ p' && e = false /\
    Forall (fun ev => exists msg, ev = Log WARNING msg) (fst (adjust_flags l e p)) /\
    List.length (fst (adjust_flags l e p))
    = (if l && e then 1 else 0) + (if p && e then 1 else 0).
Proof.
  exists (l && negb e), (p && negb e).
  destruct l, e, p; simpl; repeat split; repeat constructor; eexists; reflexivity.
Qed.

(** ** Set-up failures *)

(** What [main] does when the answer to the user request gives no user id.
    When the answer has no "elements" key, or its first element has no "id",
    the [KeyError] is handled: the error code is logged when it is there and
    not empty, [get_userid] returns false, [login] raises
    [NotImplementedError], and [main] ends with that exception logged by
    [@logger.catch]. When "elements" is an empty list, the [IndexError] is not
    handled: it leaves [get_userid] and [__init__], nothing is logged by
    [get_userid], [login] is not called, and [main] ends with the
    [IndexError] logged by [@logger.catch]. Either way the course is never
    requested and no item is touched. *)
Theorem no_user_id_ends_run
    (env : Env) (sched : Schedule) (slug : string) (l e p : bool) (r : UserResponse) :
  http_user env = Ok r ->
  elements_id r = None ->
  match elements r with
  | Some [] =>
      main env sched slug l e p
      = (fst (adjust_flags l e p)
           ++ [GetUserPermissions; LogCaught (IndexError "list index out of range")],
         Ok tt)
  | _ =>
      main env sched slug l e p
      = (fst (adjust_flags l e p)
           ++ GetUserPermissions :: error_note r ++ [LogCaught NotImplementedError],
         Ok tt)
  end.
Proof.
  intros Huser Hid.
  assert (Hmain : main env sched slug l e p
                  = logger_catch ((fst (adjust_flags l e p), Ok tt) ;;;
                                  start env sched slug (l && negb e) e (p && negb e))).
  { unfold main. rewrite adjust_flags_run, !bind_ok. reflexivity. }
  rewrite Hmain. clear Hmain.
  unfold start, Skipera_init, get_userid, on_KeyError, call, error_note. rewrite Huser.
  unfold elements_id in Hid. cbn [bind].
  destruct (elements r) as [[| [uid |] rest] |]; try discriminate; simpl;
    try (destruct (errorCode r) as [code |]; [destruct (code =? EmptyString)|]; simpl);
    rewrite <- ?app_assoc; reflexivity.
Qed.

Lemma no_user_id_ends_run_witness :
  main (mkEnv (Ok (mkUserResponse None (Some "unauthorized")))
              (http_course Sample.healthy) (http_video Sample.healthy)
              (http_supplement Sample.healthy) (watcher Sample.healthy)
              (solver Sample.healthy) Sample.int42)
       [] "slug" true true false
  = ([Log WARNING "Both --llm and --eva flags provided. Using --eva mode (assessments only).";
      GetUserPermissions;
      Log ERROR "Error Encountered: unauthorized";
      LogCaught NotImplementedError], Ok tt)
  /\
  main (mkEnv (Ok (mkUserResponse (Some []) (Some "unauthorized")))
              (http_course Sample.healthy) (http_video Sample.healthy)
              (http_supplement Sample.healthy) (watcher Sample.healthy)
              (solver Sample.healthy) Sample.int42)
       [] "slug" false false false
  = ([GetUserPermissions; LogCaught (IndexError "list index out of range")], Ok tt).
Proof.
  split.
  - apply (no_user_id_ends_run
             (mkEnv (Ok (mkUserResponse None (Some "unauthorized")))
                    (http_course Sample.healthy) (http_video Sample.healthy)
                    (http_supplement Sample.healthy) (watcher Sample.healthy)
                    (solver Sample.healthy) Sample.int42)
             [] "slug" true true false (mkUserResponse None (Some "unauthorized")));
      reflexivity.
  - apply (no_user_id_ends_run
             (mkEnv (Ok (mkUserResponse (Some []) (Some "unauthorized")))
                    (http_course Sample.healthy) (http_video Sample.healthy)
                    (http_supplement Sample.healthy) (watcher Sample.healthy)
                    (solver Sample.healthy) Sample.int42)
             [] "slug" false false false (mkUserResponse (Some []) (Some "unauthorized")));
      reflexivity.
Defined.

(** When the course request raises, [get_course] stops before the
    classification: [main] logs the user id, makes the request, and the
    exception is logged by [@logger.catch]; no item is touched. *)
Theorem course_fetch_failure_ends_run
    (env : Env) (sched : Schedule) (slug uid : string) (l e p : bool)
    (r : UserResponse) (err : exn) :
  http_user env = Ok r ->
  elements_id r = Some uid ->
  http_course env slug = Raise err ->
  main env sched slug l e p
  = (fst (adjust_flags l e p)
       ++ [GetUserPermissions; Log INFO ("User ID: " ++ uid);
           GetCourseMaterials slug; LogCaught err],
     Ok tt).
Proof.
  intros Huser Hid Hcourse. unfold main. rewrite adjust_flags_run, bind_ok.
  cbn [fst snd].
  unfold start, Skipera_init, get_userid, get_course, call. rewrite Huser. simpl.
  unfold elements_id in Hid.
  destruct (elements r) as [[| [uid' |] rest] |]; try discriminate.
  injection Hid as ->. simpl. rewrite Hcourse. simpl. rewrite <- app_assoc. reflexivity.
Qed.

Lemma course_fetch_failure_ends_run_witness :
  main (mkEnv (http_user Sample.healthy) (fun _ => Raise (RuntimeError "no such course"))
              (http_video Sample.healthy) (http_supplement Sample.healthy)
              (watcher Sample.healthy) (solver Sample.healthy) Sample.int42)
       [] "slug" false false true
  = ([GetUserPermissions; Log INFO "User ID: 42"; GetCourseMaterials "slug";
      LogCaught (RuntimeError "no such course")], Ok tt).
Proof.
  apply (course_fetch_failure_ends_run
           (mkEnv (http_user Sample.healthy) (fun _ => Raise (RuntimeError "no such course"))
                  (http_video Sample.healthy) (http_supplement Sample.healthy)
                  (watcher Sample.healthy) (solver Sample.healthy) Sample.int42)
           [] "slug" "42" false false true (mkUserResponse (Some [Some "42"]) None)
           (RuntimeError "no such course")); reflexivity.
Defined.

(** ** Classification, mode by mode *)

Lemma flat_map_filter_map {A B} (f : A -> bool) (g : A -> B) (xs : list A) :
  flat_map (fun x => if f x then [g x] else []) xs = map g (filter f xs).
Proof.
  induction xs as [| x xs IH]; simpl; [reflexivity|].
  rewrite IH. destruct (f x); reflexivity.
Qed.

(** The classification in each of the three modes, buckets in input order.
    Standard mode keeps lectures and supplements and logs one line per
    ungraded assignment, staff-graded items and unknown items leaving no
    trace. [llm] mode keeps lectures, supplements and both kinds of
    assessment and logs nothing. [eva] mode keeps the assessments only and
    logs one debug line per lecture and per supplement. *)
Theorem classify_by_mode (items : list Item) :
  classify false false items
  = (map (fun _ => Log INFO "Skipping ungraded assignment!")
         (filter (fun x => typeName x =? "ungradedAssignment") items),
     Ok (mkBuckets (filter (fun x => typeName x =? "lecture") items)
                   (filter (fun x => typeName x =? "supplement") items)
                   [])) /\
  classify true false items
  = ([],
     Ok (mkBuckets (filter (fun x => typeName x =? "lecture") items)
                   (filter (fun x => typeName x =? "supplement") items)
                   (filter gradable items))) /\
  forall l,
    classify l true items
    = (flat_map eva_note items, Ok (mkBuckets [] [] (filter gradable items))).
Proof.
  split; [|split; [|intros l]]; rewrite classify_run; f_equal.
  - rewrite <- flat_map_filter_map. apply flat_map_ext. intros x.
    unfold classify_notes, classify_item. simpl. tag_cases x; reflexivity.
  - f_equal. f_equal.
    + apply filter_ext. intros x. unfold is_video. apply andb_true_r.
    + apply filter_ext. intros x. unfold is_reading. apply andb_true_r.
    + apply filter_none. intros x. unfold is_assessment. apply andb_false_r.
  - induction items as [| x items IH]; simpl; [reflexivity|].
    rewrite IH, app_nil_r.
    unfold classify_notes, classify_item. simpl. tag_cases x; reflexivity.
  - f_equal. f_equal.
    + apply filter_ext. intros x. unfold is_video. apply andb_true_r.
    + apply filter_ext. intros x. unfold is_reading. apply andb_true_r.
    + apply filter_ext. intros x. unfold is_assessment, gradable. apply andb_true_r.
  - apply flat_map_ext. intros x.
    unfold classify_notes, classify_item, eva_note. simpl.
    tag_cases x; destruct l; reflexivity.
  - f_equal. f_equal.
    + apply filter_none. intros x. unfold is_video. apply andb_false_r.
    + apply filter_none. intros x. unfold is_reading. apply andb_false_r.
    + apply filter_ext. intros x. unfold is_assessment, gradable.
      rewrite orb_true_r. apply andb_true_r.
Qed.

(** ** What each phase can do *)

Lemma _process_video_events (env : Env) (self : Skipera) (course_id : string) (item : Item) :
  Forall (fun ev => video_event ev = true) (fst (_process_video env self course_id item)).
Proof.
  unfold _process_video, get_video_metadata, watch_item, call, log, emit.
  destruct (http_video env course_id (item_id item)) as [r | e]; simpl.
  - match goal with
    | |- context [watcher ?a ?b ?c ?d ?f ?g] => destruct (watcher a b c d f g) as [[] | e]
    end; simpl; repeat constructor.
  - repeat constructor.
Qed.

Lemma process_videos_events (env : Env) (self : Skipera) (course_id : string)
    (sched : Schedule) (vs : list Item) :
  Forall (fun ev => video_event ev = true) (fst (process_videos env self course_id sched vs)).
Proof.
  unfold process_videos. destruct vs as [| v vs]; [constructor|].
  destruct (parallel self).
  - apply Forall_bind; [repeat constructor|]. intros _.
    apply (Forall_thread_pool _ 29). intros task Htask.
    apply in_map_iff in Htask as (item & <- & _).
    rewrite future_result_ok by apply _process_video_never_raises.
    apply _process_video_events.
  - apply Forall_for_each. intros item _.
    unfold get_video_metadata, watch_item, call, log, emit.
    destruct (http_video env course_id (item_id item)) as [r | e]; simpl;
      repeat constructor.
Qed.

Lemma process_readings_events (env : Env) (self : Skipera) (course_id : string)
    (rs : list Item) :
  Forall (fun ev => reading_event ev = true) (fst (process_readings env self course_id rs)).
Proof.
  unfold process_readings. apply Forall_for_each. intros item _.
  unfold read_item, call, log, emit.
  destruct (py_int env (user_id self)) as [uid |]; simpl; [|constructor].
  destruct (http_supplement env course_id (item_id item) uid) as [text | e]; simpl;
    [destruct (contains "Completed" text); simpl|]; repeat constructor.
Qed.

Lemma process_assessments_events (env : Env) (course_id : string) (xs : list Item) :
  Forall (fun ev => assessment_event ev = true) (fst (process_assessments env course_id xs)).
Proof.
  unfold process_assessments. apply Forall_for_each. intros item _.
  unfold solve_item, call, log, emit.
  destruct (typeName item =? "ungradedAssignment");
    [|destruct (typeName item =? "staffGraded")]; simpl; repeat constructor.
Qed.

Lemma process_buckets_events (P : Event -> Prop) (env : Env) (self : Skipera)
    (course_id : string) (sched : Schedule) (b : Buckets) :
  Forall P (fst (process_videos env self course_id sched (videos b))) ->
  Forall P (fst (process_readings env self course_id (readings b))) ->
  Forall P (fst (process_assessments env course_id (assessments b))) ->
  Forall P (fst (process_buckets env self course_id sched b)).
Proof.
  intros Hv Hr Ha. unfold process_buckets.
  apply Forall_bind; [exact Hv|]. intros _.
  apply Forall_bind; [exact Hr|]. intros _. exact Ha.
Qed.

Lemma get_course_events (P : Event -> Prop) (env : Env) (self : Skipera) (sched : Schedule) :
  P (GetCourseMaterials (course self)) ->
  (forall lvl msg, P (Log lvl msg)) ->
  (forall r, http_course env (course self) = Ok r ->
             Forall P (fst (process_buckets env self (elements_course_id r) sched
                              (mkBuckets (filter (is_video (eva self)) (linked_items r))
                                         (filter (is_reading (eva self)) (linked_items r))
                                         (filter (is_assessment (llm self) (eva self))
                                                 (linked_items r)))))) ->
  Forall P (fst (get_course env self sched)).
Proof.
  intros Hget Hlog Hphases.
  destruct (http_course env (course self)) as [r | e] eqn:Hcourse.
  - rewrite (get_course_run env self sched r Hcourse). cbn [fst].
    repeat (constructor; [solve [apply Hget | apply Hlog]|]).
    apply Forall_app. split; [|apply Hphases; reflexivity].
    apply Forall_flat_map. apply Forall_forall. intros item _.
    eapply Forall_impl; [| apply classify_notes_are_logs].
    intros [] Hev; try discriminate. apply Hlog.
  - unfold get_course, call. rewrite Hcourse. simpl. constructor; [exact Hget | constructor].
Qed.

(** ** What a mode rules out *)

(** In [eva] mode the run never fetches video metadata, never watches a video
    and never posts a reading completion, whatever the course holds, whatever
    the other flags are and whatever the collaborators answer. *)
Theorem eva_touches_no_video_or_reading
    (env : Env) (self : Skipera) (sched : Schedule) :
  eva self = true ->
  Forall (fun ev => is_video_or_reading_call ev = false) (fst (get_course env self sched)).
Proof.
  intros Heva. apply get_course_events; [reflexivity | reflexivity |].
  intros r _. rewrite Heva.
  rewrite (filter_none (is_video true)) by (intros x; apply andb_false_r).
  rewrite (filter_none (is_reading true)) by (intros x; apply andb_false_r).
  apply process_buckets_events; cbn [videos readings assessments].
  - constructor.
  - constructor.
  - eapply Forall_impl; [| apply process_assessments_events].
    intros [] Hev; try discriminate; reflexivity.
Qed.

Lemma eva_touches_no_video_or_reading_witness :
  Forall (fun ev => is_video_or_reading_call ev = false)
         (fst (get_course Sample.healthy (Sample.learner false true false) [])).
Proof.
  apply (eva_touches_no_video_or_reading Sample.healthy (Sample.learner false true false) []).
  reflexivity.
Defined.

(** Without [llm] and without [eva] the solver is never called, in either
    video mode and whatever the collaborators answer. *)
Theorem standard_mode_never_solves
    (env : Env) (self : Skipera) (sched : Schedule) :
  llm self = false ->
  eva self = false ->
  Forall (fun ev => is_solve ev = false) (fst (get_course env self sched)).
Proof.
  intros Hllm Heva. apply get_course_events; [reflexivity | reflexivity |].
  intros r _. rewrite Hllm, Heva.
  rewrite (filter_none (is_assessment false false)) by (intros x; apply andb_false_r).
  apply process_buckets_events; cbn [videos readings assessments].
  - eapply Forall_impl; [| apply process_videos_events].
    intros [] Hev; try discriminate; reflexivity.
  - eapply Forall_impl; [| apply process_readings_events].
    intros [] Hev; try discriminate; reflexivity.
  - constructor.
Qed.

Lemma standard_mode_never_solves_witness :
  Forall (fun ev => is_solve ev = false)
         (fst (get_course Sample.solver_fails (Sample.learner false false true) [1; 0])).
Proof.
  apply (standard_mode_never_solves Sample.solver_fails (Sample.learner false false true)
           [1; 0]); reflexivity.
Defined.

(** ** The end of [main] *)



(** ** Videos, one task at a time *)

(** A task of the pool in which one of the two calls raises: the failure is
    logged with the name of the video and the task ends normally. *)
Lemma _process_video_failed (env : Env) (self : Skipera) (course_id : string)
    (item : Item) (e : exn) :
  video_fails_with env self course_id item e ->
  _process_video env self course_id item
  = (Log INFO ("Starting: " ++ item_name item)
       :: video_calls env course_id item
       ++ [Log ERROR ("Failed to process " ++ item_name item ++ ": " ++ str_exn e)],
     Ok tt).
Proof.
  unfold _process_video, get_video_metadata, watch_item, video_calls, call.
  intros [Hmeta | (r & Hmeta & Hwatch)]; rewrite Hmeta; simpl;
    [|rewrite Hwatch]; reflexivity.
Qed.

(** Every video either succeeds or fails with some exception. *)
Lemma video_succeeds_or_fails (env : Env) (self : Skipera) (course_id : string) (item : Item) :
  video_succeeds env self course_id item \/
  exists e, video_fails_with env self course_id item e.
Proof.
  unfold video_succeeds, video_fails_with.
  destruct (http_video env course_id (item_id item)) as [r | e] eqn:Hmeta.
  - destruct (watcher env item
                (mkMetadata (negb (disableSkippingForward r)) (linked_video_id r))
                (user_id self) (course self) course_id) as [[] | e] eqn:Hwatch.
    + left. exists r. split; [reflexivity | exact Hwatch].
    + right. exists e. right. exists r. split; [reflexivity | exact Hwatch].
  - right. exists e. left. reflexivity.
Qed.

Lemma _process_video_one_outcome (env : Env) (self : Skipera) (course_id : string) (item : Item) :
  List.length (filter is_outcome (fst (_process_video env self course_id item))) = 1.
Proof.
  destruct (video_succeeds_or_fails env self course_id item) as [Hok | [e Hfail]].
  - rewrite (_process_video_ok _ _ _ _ Hok). cbn [fst]. simpl.
    rewrite filter_app. simpl. rewrite prefix_nil.
    unfold video_calls. destruct (http_video env course_id (item_id item)); reflexivity.
  - rewrite (_process_video_failed _ _ _ _ _ Hfail). cbn [fst]. simpl.
    rewrite filter_app. simpl. rewrite prefix_nil.
    unfold video_calls. destruct (http_video env course_id (item_id item)); reflexivity.
Qed.

Lemma length_flat_map_ones {A B} (g : A -> list B) (xs : list A) :
  (forall x, List.length (g x) = 1) -> List.length (flat_map g xs) = List.length xs.
Proof.
  intros Hg. induction xs as [| x xs IH]; simpl; [reflexivity|].
  rewrite length_app, Hg, IH. reflexivity.
Qed.

(** In parallel mode no failure stops anything: the video phase ends
    normally for every schedule and every behaviour of the collaborators;
    every video of the list is started and has its metadata requested; a
    video whose calls both answer is logged as completed, a video with a call
    that raises is logged as failed with that exception; and there is exactly
    one such closing line per video. *)
Theorem parallel_videos_all_attempted
    (env : Env) (self : Skipera) (course_id : string) (sched : Schedule) (vs : list Item) :
  parallel self = true ->
  snd (process_videos env self course_id sched vs) = Ok tt /\
  List.length (filter is_outcome (fst (process_videos env self course_id sched vs)))
  = List.length vs /\
  forall v, In v vs ->
    In (Log INFO ("Starting: " ++ item_name v))
       (fst (process_videos env self course_id sched vs)) /\
    In (GetLectureVideo course_id (item_id v))
       (fst (process_videos env self course_id sched vs)) /\
    (video_succeeds env self course_id v ->
     In (Log INFO ("Completed: " ++ item_name v))
        (fst (process_videos env self course_id sched vs))) /\
    (forall e, video_fails_with env self course_id v e ->
     In (Log ERROR ("Failed to process " ++ item_name v ++ ": " ++ str_exn e))
        (fst (process_videos env self course_id sched vs))).
Proof.
  intros Hpar. destruct vs as [| v0 vs]; [simpl; repeat split; contradiction|].
  destruct (parallel_videos_run env self course_id sched v0 vs Hpar)
    as (Hok & merged & Htrace & Hperm).
  remember (v0 :: vs) as items eqn:Hitems. rewrite Htrace.
  split; [exact Hok|]. split.
  - simpl. rewrite (Permutation_length (Permutation_filter is_outcome _ _ Hperm)).
    rewrite filter_flat_map. apply length_flat_map_ones.
    intros x. apply _process_video_one_outcome.
  - intros v Hv.
    assert (Hin : forall ev, In ev (fst (_process_video env self course_id v)) ->
                             In ev (Log INFO ("Processing " ++ str_nat (List.length items)
                                              ++ " videos in parallel (max 30 at a time)...")
                                      :: merged)).
    { intros ev Hev. right. apply (Permutation_in _ (Permutation_sym Hperm)).
      apply in_flat_map. exists v. split; assumption. }
    assert (Hfetch : In (GetLectureVideo course_id (item_id v)) (video_calls env course_id v)).
    { unfold video_calls. destruct (http_video env course_id (item_id v)); left; reflexivity. }
    repeat split.
    + apply Hin. unfold _process_video, log, emit. rewrite bind_ok. left. reflexivity.
    + apply Hin.
      destruct (video_succeeds_or_fails env self course_id v) as [Hgood | [e Hbad]].
      * rewrite (_process_video_ok _ _ _ _ Hgood). right. apply in_or_app. left. exact Hfetch.
      * rewrite (_process_video_failed _ _ _ _ _ Hbad). right. apply in_or_app. left.
        exact Hfetch.
    + intros Hgood. apply Hin. rewrite (_process_video_ok _ _ _ _ Hgood).
      right. apply in_or_app. right. left. reflexivity.
    + intros e Hbad. apply Hin. rewrite (_process_video_failed _ _ _ _ _ Hbad).
      right. apply in_or_app. right. left. reflexivity.
Qed.

Lemma parallel_videos_all_attempted_witness :
  snd (process_videos Sample.video_fails (Sample.learner false false true) "C" [1; 1; 0]
         [Sample.intro; Sample.basics]) = Ok tt /\
  List.length
    (filter is_outcome
       (fst (process_videos Sample.video_fails (Sample.learner false false true) "C"
               [1; 1; 0] [Sample.intro; Sample.basics]))) = 2.
Proof.
  destruct (parallel_videos_all_attempted Sample.video_fails
              (Sample.learner false false true) "C" [1; 1; 0]
              [Sample.intro; Sample.basics] eq_refl) as (Hok & Hcount & _).
  split; [exact Hok | exact Hcount].
Defined.

(** The handler around [future.result()] (lines 101-102) never runs: since a
    task logs its own failure and returns, no "Error processing video" line
    is ever written, in either mode. *)
Theorem pool_error_never_logged
    (env : Env) (self : Skipera) (course_id : string) (sched : Schedule) (vs : list Item) :
  Forall (fun ev => is_pool_error ev = false)
         (fst (process_videos env self course_id sched vs)) /\
  forall item, future_result (_process_video env self course_id item)
               = _process_video env self course_id item.
Proof.
  split; [|intros item; apply future_result_ok, _process_video_never_raises].
  unfold process_videos. destruct vs as [| v vs]; [constructor|].
  destruct (parallel self).
  - apply Forall_bind; [repeat constructor|]. intros _.
    apply (Forall_thread_pool _ 29). intros task Htask.
    apply in_map_iff in Htask as (item & <- & _).
    rewrite future_result_ok by apply _process_video_never_raises.
    destruct (video_succeeds_or_fails env self course_id item) as [Hok | [e Hfail]].
    + rewrite (_process_video_ok _ _ _ _ Hok). cbn [fst].
      constructor; [reflexivity|]. apply Forall_app. split; [|repeat constructor].
      unfold video_calls. destruct (http_video env course_id (item_id item));
        repeat constructor.
    + rewrite (_process_video_failed _ _ _ _ _ Hfail). cbn [fst].
      constructor; [reflexivity|]. apply Forall_app. split; [|repeat constructor].
      unfold video_calls. destruct (http_video env course_id (item_id item));
        repeat constructor.
  - apply Forall_for_each. intros item _.
    unfold get_video_metadata, watch_item, call, log, emit.
    destruct (http_video env course_id (item_id item)) as [r | e]; simpl;
      repeat constructor.
Qed.

(** ** Videos, sequentially *)

Lemma sequential_video_failed (env : Env) (self : Skipera) (course_id : string)
    (item : Item) (e : exn) :
  video_fails_with env self course_id item e ->
  (log INFO (item_name item) ;;;
   metadata <- get_video_metadata env course_id (item_id item) ;;
   watch_item env self course_id item metadata)
  = (Log INFO (item_name item) :: video_calls env course_id item, Raise e).
Proof.
  unfold get_video_metadata, watch_item, video_calls, call.
  intros [Hmeta | (r & Hmeta & Hwatch)]; rewrite Hmeta; simpl;
    [|rewrite Hwatch]; reflexivity.
Qed.

Lemma sequential_video_trace (env : Env) (self : Skipera) (course_id : string) (item : Item) :
  fst (log INFO (item_name item) ;;;
       metadata <- get_video_metadata env course_id (item_id item) ;;
       watch_item env self course_id item metadata)
  = Log INFO (item_name item) :: video_calls env course_id item.
Proof.
  unfold get_video_metadata, watch_item, video_calls, call.
  destruct (http_video env course_id (item_id item)); reflexivity.
Qed.

(** In sequential mode the first video with a call that raises ends the video
    phase with that exception: the videos before it have been fetched and
    watched in input order, the failing one has been tried, and no video
    after it is touched. *)
Theorem sequential_video_failure_stops
    (env : Env) (self : Skipera) (course_id : string) (sched : Schedule)
    (watched : list Item) (item : Item) (rest : list Item) (e : exn) :
  parallel self = false ->
  Forall (video_succeeds env self course_id) watched ->
  video_fails_with env self course_id item e ->
  process_videos env self course_id sched (watched ++ item :: rest)
  = (flat_map (fun v => Log INFO (item_name v) :: video_calls env course_id v) watched
       ++ Log INFO (item_name item) :: video_calls env course_id item,
     Raise e).
Proof.
  intros Hseq Hwatched Hfail. unfold process_videos. rewrite Hseq.
  destruct (watched ++ item :: rest) as [| v0 vs0] eqn:Hlist.
  - destruct watched; discriminate.
  - rewrite <- Hlist. clear Hlist.
    assert (Hdone : Forall (fun v => snd (log INFO (item_name v) ;;;
                                          metadata <- get_video_metadata env course_id (item_id v) ;;
                                          watch_item env self course_id v metadata) = Ok tt)
                           watched).
    { eapply Forall_impl; [| exact Hwatched]. intros v Hv.
      rewrite (sequential_video_ok _ _ _ _ Hv). reflexivity. }
    rewrite for_each_app by (rewrite (for_each_all_ok _ _ Hdone); reflexivity).
    rewrite (for_each_all_ok _ _ Hdone). cbn [fst snd].
    rewrite (for_each_raise item rest _ e)
      by (rewrite (sequential_video_failed _ _ _ _ _ Hfail); reflexivity).
    rewrite (sequential_video_failed _ _ _ _ _ Hfail). cbn [fst snd].
    f_equal. f_equal. apply flat_map_ext. intros v. apply sequential_video_trace.
Qed.

Lemma sequential_video_failure_stops_witness :
  process_videos Sample.video_fails (Sample.learner false false false) "C" []
    ([Sample.basics] ++ Sample.intro :: [Sample.basics])
  = (flat_map (fun v => Log INFO (item_name v) :: video_calls Sample.video_fails "C" v)
              [Sample.basics]
       ++ Log INFO (item_name Sample.intro) :: video_calls Sample.video_fails "C" Sample.intro,
     Raise (RuntimeError "metadata fetch failed")).
Proof.
  apply (sequential_video_failure_stops Sample.video_fails
           (Sample.learner false false false) "C" [] [Sample.basics] Sample.intro
           [Sample.basics] (RuntimeError "metadata fetch failed")).
  - reflexivity.
  - repeat constructor. exists (mkVideoResponse false "t"). split; reflexivity.
  - left. reflexivity.
Defined.

(** ** Videos, in either mode *)

Lemma video_calls_watch_fetched (env : Env) (course_id : string) (vs : list Item) (item : Item) :
  In item vs -> Forall (watches_fetched env course_id vs) (video_calls env course_id item).
Proof.
  intros Hin. unfold video_calls.
  destruct (http_video env course_id (item_id item)) as [r | e] eqn:Hmeta.
  - constructor; [exact I|]. constructor; [|constructor].
    simpl. split; [exact Hin|]. exists r. split; [exact Hmeta | reflexivity].
  - constructor; [exact I | constructor].
Qed.

Lemma _process_video_trace (env : Env) (self : Skipera) (course_id : string) (item : Item) :
  exists closing,
    fst (_process_video env self course_id item)
    = Log INFO ("Starting: " ++ item_name item)
        :: video_calls env course_id item ++ [Log (fst closing) (snd closing)].
Proof.
  destruct (video_succeeds_or_fails env self course_id item) as [Hok | [e Hfail]].
  - rewrite (_process_video_ok _ _ _ _ Hok). eexists (INFO, _). reflexivity.
  - rewrite (_process_video_failed _ _ _ _ _ Hfail). eexists (ERROR, _). reflexivity.
Qed.

(** Every watch call of the video phase is for a video of the list and is
    given the metadata fetched for that very video: [can_skip] is the
    negation of [disableSkippingForward] and the tracking id is the id of
    the linked video. This holds in both modes and for every schedule. *)
Theorem watch_uses_fetched_metadata
    (env : Env) (self : Skipera) (course_id : string) (sched : Schedule) (vs : list Item) :
  Forall (watches_fetched env course_id vs)
         (fst (process_videos env self course_id sched vs)).
Proof.
  unfold process_videos. destruct vs as [| v0 vs0] eqn:Hvs; [constructor|].
  rewrite <- Hvs. assert (Hsame : forall x, In x (v0 :: vs0) -> In x vs) by (subst; auto).
  clear Hvs. destruct (parallel self).
  - apply Forall_bind; [repeat constructor|]. intros _.
    apply (Forall_thread_pool _ 29). intros task Htask.
    apply in_map_iff in Htask as (item & <- & Hitem).
    rewrite future_result_ok by apply _process_video_never_raises.
    destruct (_process_video_trace env self course_id item) as [closing ->].
    constructor; [exact I|]. apply Forall_app. split.
    + apply video_calls_watch_fetched. exact Hitem.
    + repeat constructor.
  - apply Forall_for_each. intros item Hitem. rewrite sequential_video_trace.
    constructor; [exact I|]. apply video_calls_watch_fetched. exact Hitem.
Qed.

(** ** Readings *)

Lemma read_item_posted (env : Env) (self : Skipera) (course_id : string)
    (item : Item) (uid : Z) (text : string) :
  py_int env (user_id self) = Some uid ->
  http_supplement env course_id (item_id item) uid = Ok text ->
  read_item env self course_id (item_id item)
  = (PostSupplementCompletion course_id (item_id item) uid
       :: (if unmarked env course_id uid item then [Log DEBUG "Couldn't read item!"] else []),
     Ok tt).
Proof.
  intros Hint Hpost. unfold read_item, unmarked, call, log, emit.
  rewrite Hint. simpl. rewrite Hpost. simpl.
  destruct (contains "Completed" text); reflexivity.
Qed.

Lemma process_readings_run (env : Env) (self : Skipera) (course_id : string)
    (rs : list Item) (uid : Z) :
  py_int env (user_id self) = Some uid ->
  Forall (fun x => exists text, http_supplement env course_id (item_id x) uid = Ok text) rs ->
  process_readings env self course_id rs
  = (flat_map (fun x => PostSupplementCompletion course_id (item_id x) uid
                          :: (if unmarked env course_id uid x
                              then [Log DEBUG "Couldn't read item!"] else []))
              rs, Ok tt).
Proof.
  intros Hint Hposts. unfold process_readings.
  induction Hposts as [| x rs [text Hx] _ IH]; [reflexivity|].
  cbn [for_each flat_map]. rewrite (read_item_posted _ _ _ _ _ _ Hint Hx), bind_ok, IH.
  reflexivity.
Qed.

(** When the user id is an integer and every completion POST answers, the
    readings phase ends normally, posts each reading exactly once, in input
    order and with that integer as [userId], and logs "Couldn't read item!"
    once for each answer without the marker and nothing else. A reading that
    is not marked as completed is neither retried nor does it stop the
    phase. *)
Theorem readings_posted_once_in_order
    (env : Env) (self : Skipera) (course_id : string) (rs : list Item) (uid : Z) :
  py_int env (user_id self) = Some uid ->
  Forall (fun x => exists text, http_supplement env course_id (item_id x) uid = Ok text) rs ->
  snd (process_readings env self course_id rs) = Ok tt /\
  calls (fst (process_readings env self course_id rs))
  = map (fun x => PostSupplementCompletion course_id (item_id x) uid) rs /\
  logs (fst (process_readings env self course_id rs))
  = map (fun _ => Log DEBUG "Couldn't read item!") (filter (unmarked env course_id uid) rs).
Proof.
  intros Hint Hposts.
  rewrite (process_readings_run _ _ _ _ _ Hint Hposts).
  cbn [fst snd]. split; [reflexivity|]. split.
  - unfold calls. rewrite filter_flat_map, <- flat_map_singleton.
    apply flat_map_ext. intros x. simpl.
    destruct (unmarked env course_id uid x); reflexivity.
  - unfold logs. rewrite filter_flat_map, <- flat_map_filter_map.
    apply flat_map_ext. intros x. simpl.
    destruct (unmarked env course_id uid x); reflexivity.
Qed.

Lemma readings_posted_once_in_order_witness :
  snd (process_readings Sample.unread (Sample.learner false false false) "C"
         [Sample.notes; Sample.notes]) = Ok tt /\
  calls (fst (process_readings Sample.unread (Sample.learner false false false) "C"
                [Sample.notes; Sample.notes]))
  = map (fun x => PostSupplementCompletion "C" (item_id x) 42) [Sample.notes; Sample.notes] /\
  logs (fst (process_readings Sample.unread (Sample.learner false false false) "C"
               [Sample.notes; Sample.notes]))
  = map (fun _ => Log DEBUG "Couldn't read item!")
        (filter (unmarked Sample.unread "C" 42) [Sample.notes; Sample.notes]).
Proof.
  apply (readings_posted_once_in_order Sample.unread (Sample.learner false false false)
           "C" [Sample.notes; Sample.notes] 42%Z).
  - reflexivity.
  - repeat constructor; exists "errorCode: not found"; reflexivity.
Defined.

(** When [int(self.user_id)] fails, the first reading raises [ValueError]
    before any request is made: nothing is posted and the readings phase ends
    with that exception. *)
Theorem non_integer_user_id_blocks_readings
    (env : Env) (self : Skipera) (course_id : string) (item : Item) (rest : list Item) :
  py_int env (user_id self) = None ->
  exists msg,
    process_readings env self course_id (item :: rest) = ([], Raise (ValueError msg)).
Proof.
  intros Hint. unfold process_readings, read_item. cbn [for_each].
  rewrite Hint. eexists. reflexivity.
Qed.

Lemma non_integer_user_id_blocks_readings_witness :
  exists msg,
    process_readings Sample.healthy (mkSkipera "slug" false false false "abc") "C"
      (Sample.notes :: [Sample.notes])
    = ([], Raise (ValueError msg)).
Proof.
  apply (non_integer_user_id_blocks_readings Sample.healthy
           (mkSkipera "slug" false false false "abc") "C" Sample.notes [Sample.notes]).
  reflexivity.
Defined.

(** ** Assessments *)

Lemma solve_item_solved (env : Env) (course_id : string) (item : Item) :
  (gradable item = true -> solver env course_id (item_id item) = Ok tt) ->
  solve_item env course_id item
  = (if gradable item then [attempt_note item; Solve course_id (item_id item)] else [],
     Ok tt).
Proof.
  unfold solve_item, gradable, attempt_note, call, log, emit.
  destruct (typeName item =? "ungradedAssignment");
    [|destruct (typeName item =? "staffGraded")]; simpl; intros Hsolver;
    rewrite ?(Hsolver eq_refl); reflexivity.
Qed.

Lemma process_assessments_run (env : Env) (course_id : string) (xs : list Item) :
  Forall (fun x => gradable x = true -> solver env course_id (item_id x) = Ok tt) xs ->
  process_assessments env course_id xs
  = (flat_map (fun x => if gradable x
                        then [attempt_note x; Solve course_id (item_id x)]
                        else []) xs, Ok tt).
Proof.
  intros Hsolved. unfold process_assessments.
  induction Hsolved as [| x xs Hx _ IH]; [reflexivity|].
  cbn [for_each flat_map]. rewrite (solve_item_solved _ _ _ Hx), bind_ok, IH.
  reflexivity.
Qed.



(** ** The marker test *)

Lemma prefix_spec (s1 s2 : string) :
  String.prefix s1 s2 = true <-> exists post, s2 = (s1 ++ post)%string.
Proof.
  revert s2. induction s1 as [| a s1 IH]; intros s2.
  - rewrite prefix_nil. split; [intros _; exists s2; reflexivity | reflexivity].
  - destruct s2 as [| b s2]; simpl.
    + split; [discriminate | intros [post H]; discriminate].
    + destruct (ascii_dec a b) as [-> | Hne].
      * rewrite IH. split; intros [post H]; exists post; [rewrite H | injection H]; auto.
      * split; [discriminate | intros [post H]; injection H; congruence].
Qed.

(** The test of line 153 is the substring test: it succeeds exactly when the
    body is some text, then the needle, then some text. *)
Theorem contains_spec (needle hay : string) :
  contains needle hay = true <-> exists pre post, hay = (pre ++ needle ++ post)%string.
Proof.
  split.
  - induction hay as [| c hay IH]; cbn [contains].
    + rewrite orb_false_r. intros Hp. apply prefix_spec in Hp as [post Hp].
      exists EmptyString, post. exact Hp.
    + intros H. apply orb_true_iff in H as [Hp | Hrest].
      * apply prefix_spec in Hp as [post Hp]. exists EmptyString, post. exact Hp.
      * destruct (IH Hrest) as (pre & post & ->). exists (String c pre), post. reflexivity.
  - intros (pre & post & ->). induction pre as [| c pre IH].
    + assert (Hp : String.prefix needle (needle ++ post)%string = true)
        by (apply prefix_spec; exists post; reflexivity).
      cbn [append]. destruct (needle ++ post)%string; cbn [contains]; rewrite Hp; reflexivity.
    + cbn [append contains]. cbn [append] in IH. rewrite IH. apply orb_true_r.
Qed.

(** ** Phase order, in parallel mode *)

Lemma parallel_videos_finish_before_readings_witness :
  exists merged,
    Permutation merged
      (flat_map (fun item => fst (_process_video Sample.video_fails
                                    (Sample.learner true false true) "C" item))
                (Sample.intro :: [Sample.basics])) /\
    process_buckets Sample.video_fails (Sample.learner true false true) "C" [1; 0; 1]
      (mkBuckets (Sample.intro :: [Sample.basics]) [Sample.notes] [Sample.quiz])
    = (Log INFO ("Processing " ++ str_nat (List.length (Sample.intro :: [Sample.basics]))
                 ++ " videos in parallel (max 30 at a time)...")
         :: merged
         ++ fst (process_readings Sample.video_fails (Sample.learner true false true) "C"
                   [Sample.notes] ;;;
                 process_assessments Sample.video_fails "C" [Sample.quiz]),
       snd (process_readings Sample.video_fails (Sample.learner true false true) "C"
              [Sample.notes] ;;;
            process_assessments Sample.video_fails "C" [Sample.quiz])).
Proof.
  apply (parallel_videos_finish_before_readings Sample.video_fails
           (Sample.learner true false true) "C" [1; 0; 1] Sample.intro [Sample.basics]
           [Sample.notes] [Sample.quiz]).
  reflexivity.
Defined.

(** ** The whole run, when nothing fails *)

Lemma calls_app (t1 t2 : Trace) : calls (t1 ++ t2) = calls t1 ++ calls t2.
Proof. apply filter_app. Qed.

Lemma calls_of_notes (l e : bool) (items : list Item) :
  calls (flat_map (classify_notes l e) items) = [].
Proof.
  unfold calls. rewrite filter_flat_map.
  induction items as [| x items IH]; simpl; [reflexivity|]. rewrite IH, app_nil_r.
  pose proof (classify_notes_are_logs l e x) as Hlogs.
  induction Hlogs as [| ev t Hev _ IHt]; simpl; [reflexivity|].
  destruct ev; try discriminate. exact IHt.
Qed.

Lemma videos_run_ok (env : Env) (self : Skipera) (course_id : string)
    (sched : Schedule) (vs : list Item) :
  Forall (video_succeeds env self course_id) vs ->
  exists tv,
    process_videos env self course_id sched vs = (tv, Ok tt) /\
    Permutation (calls tv) (flat_map (video_calls env course_id) vs) /\
    (parallel self = false -> calls tv = flat_map (video_calls env course_id) vs).
Proof.
  intros Hok. destruct (parallel self) eqn:Hpar.
  - destruct vs as [| v vs]; [exists []; repeat split; constructor|].
    destruct (parallel_videos_run env self course_id sched v vs Hpar)
      as (Hres & merged & Htrace & Hperm).
    remember (v :: vs) as items eqn:Hitems.
    exists (fst (process_videos env self course_id sched items)).
    split; [rewrite <- Hres; apply surjective_run|].
    split; [|discriminate]. rewrite Htrace. unfold calls. simpl.
    etransitivity; [apply Permutation_filter, Hperm|].
    rewrite filter_flat_map. apply Permutation_refl'.
    clear Htrace Hperm Hres Hitems. induction Hok as [| x xs Hx _ IH]; simpl; [reflexivity|].
    rewrite IH. f_equal. rewrite (_process_video_ok _ _ _ _ Hx). simpl.
    rewrite filter_app. simpl. rewrite app_nil_r. apply video_calls_are_calls.
  - rewrite (sequential_videos_run env self course_id sched vs Hpar Hok).
    eexists. split; [reflexivity|].
    assert (Hcalls : calls (flat_map (fun item => Log INFO (item_name item)
                                                    :: video_calls env course_id item) vs)
                     = flat_map (video_calls env course_id) vs).
    { unfold calls. rewrite filter_flat_map. apply flat_map_ext. intros item. simpl.
      apply video_calls_are_calls. }
    rewrite Hcalls. split; [reflexivity | intros _; reflexivity].
Qed.

Lemma assessments_are_gradable (l e : bool) (items : list Item) :
  filter gradable (filter (is_assessment l e) items) = filter (is_assessment l e) items.
Proof.
  apply forallb_filter_id. apply forallb_forall. intros x Hx.
  apply filter_In in Hx as [_ Hx]. unfold is_assessment in Hx.
  apply andb_true_iff in Hx as [Hx _]. exact Hx.
Qed.

(** The calls of a whole run in which no collaborator fails: the course
    request; then one metadata request and one watch call for each lecture;
    then one completion POST for each supplement, in input order; then one
    solver run for each assessment of the bucket, in input order. The video
    calls are in input order when the run is sequential and in some order
    when it is parallel; the three phases never overlap. The buckets are
    those of the mode, so [eva] leaves only the solver runs and the standard
    mode leaves none. *)
Theorem run_calls_when_nothing_fails
    (env : Env) (self : Skipera) (sched : Schedule) (r : CourseResponse) (uid : Z) :
  http_course env (course self) = Ok r ->
  py_int env (user_id self) = Some uid ->
  Forall (video_succeeds env self (elements_course_id r))
         (filter (is_video (eva self)) (linked_items r)) ->
  Forall (fun x => exists text,
              http_supplement env (elements_course_id r) (item_id x) uid = Ok text)
         (filter (is_reading (eva self)) (linked_items r)) ->
  Forall (fun x => solver env (elements_course_id r) (item_id x) = Ok tt)
         (filter (is_assessment (llm self) (eva self)) (linked_items r)) ->
  snd (get_course env self sched) = Ok tt /\
  exists video_part,
    Permutation video_part
      (flat_map (video_calls env (elements_course_id r))
                (filter (is_video (eva self)) (linked_items r))) /\
    (parallel self = false ->
     video_part = flat_map (video_calls env (elements_course_id r))
                           (filter (is_video (eva self)) (linked_items r))) /\
    calls (fst (get_course env self sched))
    = GetCourseMaterials (course self)
        :: video_part
        ++ map (fun x => PostSupplementCompletion (elements_course_id r) (item_id x) uid)
               (filter (is_reading (eva self)) (linked_items r))
        ++ map (fun x => Solve (elements_course_id r) (item_id x))
               (filter (is_assessment (llm self) (eva self)) (linked_items r)).
Proof.
  intros Hcourse Hint Hvideos Hposts Hsolved.
  rewrite (get_course_run env self sched r Hcourse). cbn [fst snd].
  destruct (videos_run_ok env self (elements_course_id r) sched _ Hvideos)
    as (tv & Hv & Hperm & Hseq).
  pose proof (process_readings_run env self _ _ uid Hint Hposts) as Hr.
  assert (Hgradable : Forall (fun x => gradable x = true ->
                                       solver env (elements_course_id r) (item_id x) = Ok tt)
                             (filter (is_assessment (llm self) (eva self)) (linked_items r))).
  { eapply Forall_impl; [| exact Hsolved]. intros x Hx _. exact Hx. }
  pose proof (process_assessments_run env _ _ Hgradable) as Ha.
  unfold process_buckets. cbn [videos readings assessments].
  rewrite Hv, bind_ok, Hr, bind_ok, Ha. cbn [fst snd].
  split; [reflexivity|]. exists (calls tv). split; [exact Hperm|]. split; [exact Hseq|].
  unfold calls at 1. cbn [filter is_log negb].
  change (filter (fun ev => negb (is_log ev))) with calls.
  rewrite !calls_app, calls_of_notes. cbn [app].
  f_equal. f_equal. f_equal.
  - unfold calls. rewrite filter_flat_map, <- flat_map_singleton.
    apply flat_map_ext. intros x. simpl.
    destruct (unmarked env (elements_course_id r) uid x); reflexivity.
  - unfold calls. rewrite filter_flat_map.
    rewrite <- (assessments_are_gradable (llm self) (eva self) (linked_items r)) at 2.
    rewrite <- flat_map_filter_map. apply flat_map_ext. intros x.
    destruct (gradable x); [|reflexivity]. simpl.
    unfold attempt_note. destruct (typeName x =? "ungradedAssignment"); reflexivity.
Qed.

Lemma run_calls_when_nothing_fails_witness :
  snd (get_course Sample.healthy (Sample.learner true false true) [1; 0]) = Ok tt.
Proof.
  assert (Hvideos : Forall (video_succeeds Sample.healthy (Sample.learner true false true)
                              (elements_course_id Sample.materials))
                           (filter (is_video false) (linked_items Sample.materials))).
  { simpl. repeat constructor; exists (mkVideoResponse false "t"); split; reflexivity. }
  assert (Hposts : Forall (fun x => exists text,
                               http_supplement Sample.healthy
                                 (elements_course_id Sample.materials) (item_id x) 42
                               = Ok text)
                          (filter (is_reading false) (linked_items Sample.materials))).
  { simpl. repeat constructor. exists "status: Completed". reflexivity. }
  assert (Hsolved : Forall (fun x => solver Sample.healthy
                                       (elements_course_id Sample.materials) (item_id x)
                                     = Ok tt)
                           (filter (is_assessment true false) (linked_items Sample.materials))).
  { simpl. repeat constructor. }
  exact (proj1 (run_calls_when_nothing_fails Sample.healthy
                  (Sample.learner true false true) [1; 0] Sample.materials 42%Z
                  eq_refl eq_refl Hvideos Hposts Hsolved)).
Defined.

(** * The pool of 30 threads *)

Lemma within_mono (room : nat) (ws : list Trace) :
  within room ws -> within (S room) ws.
Proof.
  revert room. induction ws as [| w ws IH]; intros room; simpl; [trivial|].
  destruct w as [| ev w]; [apply IH|].
  destruct room as [| room]; [intros [_ H]; exact H | apply IH].
Qed.

Lemma within_bound (room : nat) (ws : list Trace) :
  within room ws -> in_flight ws <= room.
Proof.
  unfold in_flight. revert room. induction ws as [| w ws IH]; intros room; [simpl; lia|].
  destruct w as [| ev w]; [cbn [within filter running]; apply IH|].
  cbn [within filter]. destruct room as [| room].
  - intros [Hw Hws]. rewrite Hw. apply (IH 0 Hws).
  - intros Hws. specialize (IH room Hws).
    destruct (running (ev :: w)); cbn [List.length]; lia.
Qed.

(** One step of a task: it stays a task of the pool, and the step is its
    first line exactly when it gets running and its closing line exactly when
    it stops running. *)
Lemma task_step (ev : Event) (w : Trace) :
  task_state (ev :: w) ->
  task_state w /\
  (if running w then 1 else 0) + (if is_outcome ev then 1 else 0)
  = (if running (ev :: w) then 1 else 0) + (if is_start ev then 1 else 0).
Proof.
  unfold task_state. intros [Hnil | [Hfresh | Hrun]]; [discriminate | |].
  - simpl in Hfresh. apply andb_true_iff in Hfresh as [Hso Hw].
    apply andb_true_iff in Hso as [Hs Ho]. apply negb_true_iff in Ho.
    split; [right; right; exact Hw|].
    cbn [running]. rewrite Hs, Ho, Hw. reflexivity.
  - pose proof Hrun as Hrun'. cbn [running] in Hrun.
    apply andb_true_iff in Hrun as [Hs Hrest]. apply negb_true_iff in Hs.
    rewrite Hrun', Hs. destruct w as [| ev' w'].
    + split; [left; reflexivity|]. rewrite Hrest. reflexivity.
    + apply andb_true_iff in Hrest as [Ho Hw]. apply negb_true_iff in Ho.
      split; [right; right; exact Hw|]. rewrite Hw, Ho. reflexivity.
Qed.

(** One step of the scheduler keeps the running tasks inside the window. *)
Lemma pick_step (room k : nat) (ws : list Trace) (ev : Event) (ws' : list Trace) :
  Forall task_state ws ->
  within room ws ->
  pick room k ws = Some (ev, ws') ->
  Forall task_state ws' /\
  within room ws' /\
  in_flight ws' + (if is_outcome ev then 1 else 0)
  = in_flight ws + (if is_start ev then 1 else 0).
Proof.
  unfold in_flight.
  revert room k ev ws'. induction ws as [| w0 ws IH]; intros room k ev ws' Hts Hin;
    cbn [pick]; [discriminate|].
  apply Forall_cons_iff in Hts as [Hw0 Hts].
  assert (Hhead : forall room0 e w1, w0 = e :: w1 -> room = S room0 -> within room0 ws ->
            Forall task_state (w1 :: ws) /\
            within (S room0) (w1 :: ws) /\
            List.length (filter running (w1 :: ws)) + (if is_outcome e then 1 else 0)
            = List.length (filter running ((e :: w1) :: ws)) + (if is_start e then 1 else 0)).
  { intros room0 e w1 -> -> Hws. destruct (task_step e w1 Hw0) as [Hw1 Hcount].
    split; [constructor; assumption|]. split.
    - destruct w1 as [| e1 w1]; [apply within_mono|]; exact Hws.
    - cbn [filter]. destruct (running w1), (running (e :: w1)); cbn [List.length] in *; lia. }
  destruct w0 as [| e w0].
  - destruct (pick room k ws) as [[ev1 ws1] |] eqn:Hp; [|discriminate].
    intros [= <- <-]. destruct (IH _ _ _ _ Hts Hin Hp) as (Hts' & Hin' & Hcount).
    split; [constructor; [left; reflexivity | exact Hts']|].
    split; [exact Hin' | exact Hcount].
  - destruct room as [| room]; [discriminate|]. cbn [within] in Hin.
    destruct k as [| k].
    + intros [= <- <-]. apply (Hhead room e w0 eq_refl eq_refl Hin).
    + destruct (pick room k ws) as [[ev1 ws1] |] eqn:Hp.
      * intros [= <- <-]. destruct (IH _ _ _ _ Hts Hin Hp) as (Hts' & Hin' & Hcount).
        split; [constructor; assumption|]. split; [exact Hin'|].
        cbn [filter]. destruct (running (e :: w0)); cbn [List.length]; lia.
      * intros [= <- <-]. apply (Hhead room e w0 eq_refl eq_refl Hin).
Qed.

(** After any prefix of the merged trace, the number of tasks in flight is
    the number of first lines minus the number of closing lines seen so far,
    and the running tasks are inside the window. *)
Lemma interleave_prefix (room : nat) (p : Trace) :
  forall (fuel : nat) (sched : Schedule) (ws : list Trace) (rest : Trace),
    Forall task_state ws ->
    within room ws ->
    interleave fuel room sched ws = p ++ rest ->
    exists ws',
      within room ws' /\
      in_flight ws' + closings p = in_flight ws + starts p.
Proof.
  unfold starts, closings.
  induction p as [| ev p IH]; intros fuel sched ws rest Hts Hin Hrun.
  - exists ws. split; [exact Hin | reflexivity].
  - destruct fuel as [| fuel]; [discriminate|]. cbn [interleave] in Hrun.
    destruct (pick room (hd 0 sched) ws) as [[ev1 ws1] |] eqn:Hp; [|discriminate].
    injection Hrun as -> Hrun.
    destruct (pick_step _ _ _ _ _ Hts Hin Hp) as (Hts1 & Hin1 & Hstep).
    destruct (IH _ _ _ _ Hts1 Hin1 Hrun) as (ws' & Hin' & Hcount).
    exists ws'. split; [exact Hin'|].
    cbn [filter]. destruct (is_outcome ev), (is_start ev); cbn [List.length]; lia.
Qed.

Lemma fresh_pool (room : nat) (ws : list Trace) :
  Forall (fun w => fresh w = true) ws ->
  Forall task_state ws /\ within room ws /\ in_flight ws = 0.
Proof.
  unfold in_flight. intros Hfresh. revert room.
  induction Hfresh as [| w ws Hw _ IH]; intros room; [repeat split; constructor|].
  destruct (IH room) as (Hts & _ & Hzero).
  assert (Hnot : running w = false).
  { destruct w as [| ev w]; [reflexivity|]. simpl in Hw.
    apply andb_true_iff in Hw as [Hso _]. apply andb_true_iff in Hso as [Hs _].
    cbn [running]. rewrite Hs. reflexivity. }
  split; [constructor; [right; left; exact Hw | exact Hts]|]. split.
  - destruct w as [| ev w]; [discriminate|]. cbn [within].
    destruct room as [| room]; [split; [exact Hnot | apply IH] | apply IH].
  - cbn [filter]. rewrite Hnot. exact Hzero.
Qed.

(** A task of the pool begins with its "Starting" line and ends with its
    closing line, with the calls in between. *)
Lemma _process_video_fresh (env : Env) (self : Skipera) (course_id : string) (item : Item) :
  fresh (fst (future_result (_process_video env self course_id item))) = true.
Proof.
  rewrite future_result_ok by apply _process_video_never_raises.
  destruct (video_succeeds_or_fails env self course_id item) as [Hok | [e Hfail]].
  - rewrite (_process_video_ok _ _ _ _ Hok). cbn [fst]. unfold video_calls.
    destruct (http_video env course_id (item_id item)); simpl;
      rewrite !prefix_nil; reflexivity.
  - rewrite (_process_video_failed _ _ _ _ _ Hfail). cbn [fst]. unfold video_calls.
    destruct (http_video env course_id (item_id item)); simpl;
      rewrite !prefix_nil; reflexivity.
Qed.

Lemma running_counts (w : Trace) :
  running w = true -> starts w = 0 /\ closings w = 1.
Proof.
  unfold starts, closings. induction w as [| ev w IH]; [discriminate|].
  cbn [running filter]. intros Hrun.
  apply andb_true_iff in Hrun as [Hs Hrest]. apply negb_true_iff in Hs. rewrite Hs.
  destruct w as [| ev' w'].
  - rewrite Hrest. split; reflexivity.
  - apply andb_true_iff in Hrest as [Ho Hw]. apply negb_true_iff in Ho. rewrite Ho.
    exact (IH Hw).
Qed.

Lemma fresh_counts (w : Trace) :
  fresh w = true -> starts w = 1 /\ closings w = 1.
Proof.
  destruct w as [| ev w]; [discriminate|]. cbn [fresh]. intros Hfresh.
  apply andb_true_iff in Hfresh as [Hso Hw]. apply andb_true_iff in Hso as [Hs Ho].
  apply negb_true_iff in Ho. destruct (running_counts w Hw) as [Hstarts Hclosings].
  unfold starts, closings in *. cbn [filter]. rewrite Hs, Ho. cbn [List.length].
  rewrite Hstarts, Hclosings. split; reflexivity.
Qed.

(** In the pool of the video phase, after any prefix of the merged trace, the
    tasks that have started and not ended are at most [max_workers]. *)
Lemma pool_in_flight (env : Env) (self : Skipera) (course_id : string)
    (sched : Schedule) (vs : list Item) (p rest : Trace) :
  fst (thread_pool max_workers sched (map (_process_video env self course_id) vs))
  = p ++ rest ->
  closings p <= starts p /\ starts p - closings p <= max_workers.
Proof.
  unfold thread_pool. cbn [fst]. intros Hrun.
  destruct (fresh_pool max_workers
              (map (fun task => fst (future_result task))
                   (map (_process_video env self course_id) vs)))
    as (Hts & Hin & Hzero).
  { apply Forall_map, Forall_map, Forall_forall. intros item _.
    apply _process_video_fresh. }
  destruct (interleave_prefix _ _ _ _ _ _ Hts Hin Hrun) as (ws' & Hin' & Hcount).
  apply within_bound in Hin'. lia.
Qed.

(** C9: in parallel mode, for every list of videos (100 of them, say), every
    schedule and every behaviour of the collaborators, at every moment of the
    video phase the tasks that have logged their "Starting" line and not yet
    their closing line are at most 30. The phase ends normally with every
    task started and closed, and all of it is in the trace before the first
    event of the readings: the runner waits for every submitted task. *)
Theorem C9_at_most_30_videos_in_flight
    (env : Env) (self : Skipera) (course_id : string) (sched : Schedule)
    (vs rs xs : list Item) :
  parallel self = true ->
  (forall p rest,
      fst (process_videos env self course_id sched vs) = p ++ rest ->
      closings p <= starts p /\ starts p - closings p <= 30) /\
  exists tv,
    process_videos env self course_id sched vs = (tv, Ok tt) /\
    starts tv = List.length vs /\
    closings tv = List.length vs /\
    process_buckets env self course_id sched (mkBuckets vs rs xs)
    = (tv ++ fst (process_readings env self course_id rs ;;;
                  process_assessments env course_id xs),
       snd (process_readings env self course_id rs ;;;
            process_assessments env course_id xs)).
Proof.
  intros Hpar. split.
  - intros p rest. unfold process_videos. rewrite Hpar.
    destruct vs as [| v vs].
    + cbn [ret fst]. intros Hrun. destruct p; [|discriminate].
      unfold starts, closings. simpl. lia.
    + remember (v :: vs) as items eqn:Hitems.
      unfold log, emit. rewrite bind_ok. cbn [fst app].
      destruct p as [| ev p]; [intros _; unfold starts, closings; simpl; lia|].
      intros [= <- Hrun].
      destruct (pool_in_flight env self course_id sched items p rest Hrun) as [Hle Hcap].
      unfold starts, closings in *. simpl. split; [exact Hle | exact Hcap].
  - assert (Hphase : exists tv,
               process_videos env self course_id sched vs = (tv, Ok tt) /\
               starts tv = List.length vs /\ closings tv = List.length vs).
    { destruct vs as [| v vs]; [exists []; repeat split|].
      destruct (parallel_videos_run env self course_id sched v vs Hpar)
        as (Hok & merged & Htrace & Hperm).
      remember (v :: vs) as items eqn:Hitems.
      exists (fst (process_videos env self course_id sched items)).
      split; [rewrite <- Hok; apply surjective_run|].
      rewrite Htrace. unfold starts, closings. simpl.
      rewrite (Permutation_length (Permutation_filter is_start _ _ Hperm)).
      rewrite (Permutation_length (Permutation_filter is_outcome _ _ Hperm)).
      rewrite !filter_flat_map.
      split; apply length_flat_map_ones; intros x;
        pose proof (_process_video_fresh env self course_id x) as Hfresh;
        rewrite future_result_ok in Hfresh by apply _process_video_never_raises;
        apply fresh_counts in Hfresh; apply Hfresh. }
    destruct Hphase as (tv & Hrun & Hstarts & Hclosings).
    exists tv. repeat split; try assumption.
    unfold process_buckets. cbn [videos readings assessments].
    rewrite Hrun, bind_ok. reflexivity.
Qed.

Lemma C9_witness :
  (forall p rest,
      fst (process_videos Sample.video_fails (Sample.learner false false true) "C"
             [3; 1; 4; 1; 5] (repeat Sample.basics 100)) = p ++ rest ->
      closings p <= starts p /\ starts p - closings p <= 30) /\
  exists tv,
    process_videos Sample.video_fails (Sample.learner false false true) "C"
      [3; 1; 4; 1; 5] (repeat Sample.basics 100) = (tv, Ok tt) /\
    starts tv = List.length (repeat Sample.basics 100) /\
    closings tv = List.length (repeat Sample.basics 100) /\
    process_buckets Sample.video_fails (Sample.learner false false true) "C"
      [3; 1; 4; 1; 5] (mkBuckets (repeat Sample.basics 100) [Sample.notes] [])
    = (tv ++ fst (process_readings Sample.video_fails (Sample.learner false false true)
                    "C" [Sample.notes] ;;;
                  process_assessments Sample.video_fails "C" []),
       snd (process_readings Sample.video_fails (Sample.learner false false true)
              "C" [Sample.notes] ;;;
            process_assessments Sample.video_fails "C" [])).
Proof.
  apply (C9_at_most_30_videos_in_flight Sample.video_fails
           (Sample.learner false false true) "C" [3; 1; 4; 1; 5]
           (repeat Sample.basics 100) [Sample.notes] []).
  reflexivity.
Defined.

(** The pool can be full: with 35 videos and a schedule that lets thirty
    different tasks make their first step, thirty are in flight. *)
Lemma pool_fills_up :
  starts (firstn 31 (fst (process_videos Sample.healthy (Sample.learner false false true)
                            "C" (seq 0 30) (repeat Sample.basics 35))))
  - closings (firstn 31 (fst (process_videos Sample.healthy
                                (Sample.learner false false true)
                                "C" (seq 0 30) (repeat Sample.basics 35))))
  = 30.
Proof. vm_compute. reflexivity. Qed.

(** * A failing solver *)









(** * The two video paths, when nothing fails *)



(** * No video twice *)

Lemma count_flat_map_le {A} (f : Event -> bool) (p : A -> bool) (g : A -> Trace)
    (xs : list A) :
  (forall x, List.length (filter f (g x)) <= if p x then 1 else 0) ->
  List.length (filter f (flat_map g xs)) <= List.length (filter p xs).
Proof.
  intros Hg. induction xs as [| x xs IH]; simpl; [lia|].
  rewrite filter_app, length_app. specialize (Hg x).
  destruct (p x); simpl; lia.
Qed.

Lemma count_flat_map_eq {A} (f : Event -> bool) (p : A -> bool) (g : A -> Trace)
    (xs : list A) :
  (forall x, List.length (filter f (g x)) = if p x then 1 else 0) ->
  List.length (filter f (flat_map g xs)) = List.length (filter p xs).
Proof.
  intros Hg. induction xs as [| x xs IH]; simpl; [lia|].
  rewrite filter_app, length_app. specialize (Hg x).
  destruct (p x); simpl; lia.
Qed.

Lemma count_for_each_le {A} (f : Event -> bool) (p : A -> bool) (xs : list A)
    (body : A -> M unit) :
  (forall x, List.length (filter f (fst (body x))) <= if p x then 1 else 0) ->
  List.length (filter f (fst (for_each xs body))) <= List.length (filter p xs).
Proof.
  intros Hbody. induction xs as [| x xs IH]; simpl; [lia|].
  specialize (Hbody x). destruct (body x) as [t [[] | e]]; simpl in *.
  - destruct (for_each xs body) as [t' r']. simpl in *.
    rewrite filter_app, length_app. destruct (p x); simpl; lia.
  - destruct (p x); simpl; lia.
Qed.

(** The calls of one video: one metadata request, for its own id, and at most
    one watch call, for itself. *)
Lemma video_calls_per_video (env : Env) (course_id : string) (v : Item) :
  (forall iid, List.length (filter (is_fetch_of course_id iid) (video_calls env course_id v))
               = if item_id v =? iid then 1 else 0) /\
  (forall x, List.length (filter (is_watch_of x) (video_calls env course_id v))
             <= if Item_eqb x v then 1 else 0).
Proof.
  unfold video_calls. split.
  - intros iid. destruct (http_video env course_id (item_id v)); simpl;
      rewrite String.eqb_refl; simpl; destruct (item_id v =? iid); reflexivity.
  - intros x. destruct (http_video env course_id (item_id v)); simpl;
      destruct (Item_eqb x v); simpl; lia.
Qed.

(** No video is processed twice. In both modes, for every schedule and every
    behaviour of the collaborators, the video phase requests the metadata of
    an item id at most as many times as the list has videos with that id,
    and makes at most as many watch calls for an item as the list has
    occurrences of it: once per video of the list at most. In parallel mode
    the metadata of every video of the list is requested exactly once. *)
Theorem videos_processed_at_most_once
    (env : Env) (self : Skipera) (course_id : string) (sched : Schedule) (vs : list Item) :
  (forall iid,
      List.length (filter (is_fetch_of course_id iid)
                          (fst (process_videos env self course_id sched vs)))
      <= List.length (filter (fun v => item_id v =? iid) vs)) /\
  (forall x,
      List.length (filter (is_watch_of x)
                          (fst (process_videos env self course_id sched vs)))
      <= List.length (filter (Item_eqb x) vs)) /\
  (parallel self = true ->
   forall iid,
     List.length (filter (is_fetch_of course_id iid)
                         (fst (process_videos env self course_id sched vs)))
     = List.length (filter (fun v => item_id v =? iid) vs)).
Proof.
  destruct vs as [| v0 vs0]; [simpl; repeat split; intros; lia|].
  destruct (parallel self) eqn:Hpar.
  - destruct (parallel_videos_run env self course_id sched v0 vs0 Hpar)
      as (_ & merged & Htrace & Hperm).
    remember (v0 :: vs0) as items eqn:Hitems. rewrite Htrace.
    assert (Hfetch : forall iid,
               List.length (filter (is_fetch_of course_id iid)
                              (Log INFO ("Processing " ++ str_nat (List.length items)
                                         ++ " videos in parallel (max 30 at a time)...")
                                 :: merged))
               = List.length (filter (fun v => item_id v =? iid) items)).
    { intros iid. cbn [filter is_fetch_of].
      rewrite (Permutation_length (Permutation_filter _ _ _ Hperm)).
      apply count_flat_map_eq. intros x.
      destruct (_process_video_trace env self course_id x) as [closing ->].
      cbn [filter is_fetch_of]. rewrite filter_app, length_app. cbn [filter is_fetch_of].
      cbn [List.length]. rewrite Nat.add_0_r. apply video_calls_per_video. }
    split; [intros iid; rewrite Hfetch; lia|]. split; [|intros _; exact Hfetch].
    intros x. cbn [filter is_watch_of].
    rewrite (Permutation_length (Permutation_filter _ _ _ Hperm)).
    apply count_flat_map_le. intros y.
    destruct (_process_video_trace env self course_id y) as [closing ->].
    cbn [filter is_watch_of]. rewrite filter_app, length_app. cbn [filter is_watch_of].
    cbn [List.length]. rewrite Nat.add_0_r. apply video_calls_per_video.
  - unfold process_videos. rewrite Hpar. split; [|split; [|discriminate]].
    + intros iid. apply count_for_each_le. intros x. rewrite sequential_video_trace.
      cbn [filter is_fetch_of].
      destruct (video_calls_per_video env course_id x) as [-> _]. lia.
    + intros x. apply count_for_each_le. intros y. rewrite sequential_video_trace.
      cbn [filter is_watch_of]. apply video_calls_per_video.
Qed.

(** * How [main()] ends *)

